(** * Authentication flow of the NestJS to-do-list project

    A shallow embedding of [src/auth/auth.service.ts] (AuthService, the
    password helpers and the DTO classes), of the Passport [JwtStrategy],
    of the [Users] model of [prisma/schema.prisma] and of the [RolesGuard]
    of the authentication guide.

    - The database is a value: the [Users] table is the list of its rows
      together with the auto-increment counter, and a query is a function
      of it.
    - An [async] method is a computation over the [World] (the table and
      the configuration service the providers share) that either resolves
      to a value or rejects with an exception.
    - bcrypt, jsonwebtoken and the e-mail test of class-validator are
      libraries outside the repository: they are interfaces here, and a
      theorem that needs a property of one of them says so as a
      hypothesis. *)

From Stdlib Require Import ZArith List String Ascii Bool Lia.
From Stdlib Require Import DecimalString.
Import ListNotations.

Open Scope string_scope.
Open Scope Z_scope.

(** ** Exceptions and asynchronous methods *)

(** The exceptions the flow can raise.  [BadRequestException] and
    [UnauthorizedException] are Nest's HTTP exceptions, [Error] is the
    plain JavaScript error, [PrismaClientKnownRequestError] is what the
    Prisma client throws when a constraint of the schema is violated. *)
Inductive Exception : Type :=
| BadRequestException (message : string)
| UnauthorizedException (message : string)
| Error (message : string)
| PrismaClientKnownRequestError (code : string).

(** The status of the response Nest's exception filter sends: the status
    of an HTTP exception, 500 for anything else. *)
Definition httpStatus (e : Exception) : Z :=
  match e with
  | BadRequestException _ => 400
  | UnauthorizedException _ => 401
  | Error _ => 500
  | PrismaClientKnownRequestError _ => 500
  end.

Definition errorMessage (e : Exception) : string :=
  match e with
  | BadRequestException m => m
  | UnauthorizedException m => m
  | Error m => m
  | PrismaClientKnownRequestError c => c
  end.

(** Two exceptions are of the same class when they were built by the same
    constructor. *)
Definition sameClass (e1 e2 : Exception) : bool :=
  match e1, e2 with
  | BadRequestException _, BadRequestException _ => true
  | UnauthorizedException _, UnauthorizedException _ => true
  | Error _, Error _ => true
  | PrismaClientKnownRequestError _, PrismaClientKnownRequestError _ => true
  | _, _ => false
  end.

Inductive Outcome (A : Type) : Type :=
| Resolved (value : A)
| Rejected (reason : Exception).

Arguments Resolved {A} value.
Arguments Rejected {A} reason.

(** ** The Prisma schema *)

(** [enum Role { admin user }] *)
Inductive Role : Type := admin | user.

Definition Role_eqb (r1 r2 : Role) : bool :=
  match r1, r2 with
  | admin, admin => true
  | user, user => true
  | _, _ => false
  end.

(** The value of the enum at run time is its name. *)
Definition Role_toString (r : Role) : string :=
  match r with
  | admin => "admin"
  | user => "user"
  end.

(** [model Users].  The [Tasks] relation plays no part in the flow. *)
Module Users.
Record t : Type := mk {
  Id : Z;
  name : string;
  email : string;
  password : string;
  phone_number : option string;
  role : Role;
  createdAt : Z;
  updatedAt : Z
}.
End Users.

(** The argument of [prisma.users.create]: the fields without a default
    are required, the others optional. *)
Module UsersCreateInput.
Record t : Type := mk {
  email : string;
  name : string;
  password : string;
  phone_number : option string;
  role : option Role
}.
End UsersCreateInput.

(** The table: its rows in insertion order and the next value of
    [@default(autoincrement())]. *)
Record UsersTable : Type := mkUsersTable {
  rows : list Users.t;
  autoIncrement : Z
}.

Definition emptyTable : UsersTable :=
  {| rows := []; autoIncrement := 1 |}.

(** ** Configuration *)

(** The configuration service: the environment variables by name.
    [get] is [undefined] ([None]) for a variable that is not set. *)
Definition ConfigService : Type := list (string * string).

Fixpoint get (config : ConfigService) (key : string) : option string :=
  match config with
  | [] => None
  | (k, v) :: rest => if String.eqb k key then Some v else get rest key
  end.

(** JavaScript's [!value] on a value that is a string or [undefined]. *)
Definition falsy (value : option string) : bool :=
  match value with
  | None => true
  | Some s => String.eqb s ""
  end.

(** ** The world of the providers *)

(** What the providers share: the database behind [PrismaService] and the
    [ConfigService]. *)
Record World : Type := mkWorld {
  users : UsersTable;
  config : ConfigService
}.

(** An [async] method: from the world before the call to its outcome and
    the world after it.  A call modelled this way runs from its first
    [await] to its last with no other request in between; what another
    request can do between the two awaits of [register] is modelled by
    [register_resume] below. *)
Definition Promise (A : Type) : Type := World -> Outcome A * World.

Definition ret {A : Type} (a : A) : Promise A :=
  fun w => (Resolved a, w).

Definition throw {A : Type} (e : Exception) : Promise A :=
  fun w => (Rejected e, w).

Definition bind {A B : Type} (m : Promise A) (k : A -> Promise B) : Promise B :=
  fun w =>
    match m w with
    | (Resolved a, w') => k a w'
    | (Rejected e, w') => (Rejected e, w')
    end.

Notation "x <- m ;; k" := (bind m (fun x => k))
  (at level 61, m at next level, right associativity).

(** [this.config.get(key)], read when the method runs. *)
Definition config_get (key : string) : Promise (option string) :=
  fun w => (Resolved (get (config w) key), w).

(** ** Text and the width of a column *)

(** A [string] holds the UTF-8 bytes of a text.  Its characters are its
    code points: one for each byte that is not a continuation byte
    (a byte from 128 to 191). *)
Definition isContinuation (c : ascii) : bool :=
  Nat.leb 128 (nat_of_ascii c) && Nat.leb (nat_of_ascii c) 191.

Fixpoint characters (s : string) : nat :=
  match s with
  | EmptyString => O
  | String c s' => if isContinuation c then characters s' else S (characters s')
  end.

(** Every byte is below 128: the text is ASCII, and its bytes, its
    characters and its UTF-16 code units are the same thing. *)
Fixpoint isAscii (s : string) : bool :=
  match s with
  | EmptyString => true
  | String c s' => Nat.ltb (nat_of_ascii c) 128 && isAscii s'
  end.

(** The migration declares every string column of [Users] as
    [VARCHAR(191)]: 191 characters. *)
Definition columnWidth : nat := 191.

Definition fitsColumn (s : string) : bool :=
  Nat.leb (characters s) columnWidth.

(** ** PrismaService.users *)

Definition hasEmail (email : string) (u : Users.t) : bool :=
  String.eqb (Users.email u) email.

Definition hasId (id : Z) (u : Users.t) : bool :=
  Z.eqb (Users.Id u) id.

(** [findUnique({ where: { email } })].  The filter is equality of
    strings, an exact match; the collation of the database is not part
    of the model. *)
Definition findUnique_email (email : string) : Promise (option Users.t) :=
  fun w => (Resolved (find (hasEmail email) (rows (users w))), w).

(** [findUnique({ where: { Id } })] *)
Definition findUnique_Id (id : Z) : Promise (option Users.t) :=
  fun w => (Resolved (find (hasId id) (rows (users w))), w).

Definition orDefault {A : Type} (d : A) (o : option A) : A :=
  match o with
  | Some a => a
  | None => d
  end.

(** The row [create] inserts: [Id] from the counter, [role] from
    [@default(user)] when the caller gives none, both timestamps the
    time of the insert. *)
Definition newRow (t : UsersTable) (data : UsersCreateInput.t) (now : Z) : Users.t :=
  {| Users.Id := autoIncrement t;
     Users.name := UsersCreateInput.name data;
     Users.email := UsersCreateInput.email data;
     Users.password := UsersCreateInput.password data;
     Users.phone_number := UsersCreateInput.phone_number data;
     Users.role := orDefault user (UsersCreateInput.role data);
     Users.createdAt := now;
     Users.updatedAt := now |}.

(** The string columns of the row fit their width. *)
Definition fitsColumns (data : UsersCreateInput.t) : bool :=
  fitsColumn (UsersCreateInput.name data)
  && fitsColumn (UsersCreateInput.email data)
  && fitsColumn (UsersCreateInput.password data)
  && match UsersCreateInput.phone_number data with
     | Some phone => fitsColumn phone
     | None => true
     end.

(** [create({ data })], on the MySQL table of the migration (strict
    mode, as installed).  A value too long for its column is refused
    before the insert is tried (error code P2000).  The unique index on
    [email] refuses a second row with the same e-mail (error code
    P2002), and the insert that failed on it has used up a value of the
    counter.  Otherwise the row is appended and returned. *)
Definition create (data : UsersCreateInput.t) (now : Z) : Promise Users.t :=
  fun w =>
    let t := users w in
    if negb (fitsColumns data)
    then (Rejected (PrismaClientKnownRequestError "P2000"), w)
    else if existsb (hasEmail (UsersCreateInput.email data)) (rows t)
    then (Rejected (PrismaClientKnownRequestError "P2002"),
          {| users := {| rows := rows t;
                         autoIncrement := autoIncrement t + 1 |};
             config := config w |})
    else
      let u := newRow t data now in
      (Resolved u,
       {| users := {| rows := rows t ++ [u];
                      autoIncrement := autoIncrement t + 1 |};
          config := config w |}).

(** ** Libraries outside the repository *)

(** bcrypt.  [bcrypt_hash data saltRounds salt] is the result of
    [bcrypt.hash(data, saltRounds)] when the salt the library draws for
    the call is [salt]; [bcrypt_compare data encrypted] is
    [bcrypt.compare(data, encrypted)]. *)
Class Bcrypt : Type := {
  bcrypt_hash : string -> Z -> string -> string;
  bcrypt_compare : string -> string -> bool
}.

(** What the flow expects of bcrypt: a hash compares equal to the data
    it was made from. *)
Definition bcrypt_accepts_own_hash (B : Bcrypt) : Prop :=
  forall data saltRounds salt,
    bcrypt_compare data (bcrypt_hash data saltRounds salt) = true.

(** The claims of a token: [interface Payload]. *)
Module Payload.
Record t : Type := mk {
  sub : Z;
  email : string
}.
End Payload.

Record JwtSignOptions : Type := mkJwtSignOptions {
  expiresIn : option string;
  secret : option string
}.

(** jsonwebtoken, behind [JwtService.signAsync] and behind passport-jwt.
    [jwt_signAsync payload options now] is the token, or the message of
    the [Error] the library throws; [jwt_verify token secretOrKey now] is
    the payload of a token whose signature and expiry pass at time [now],
    and [None] otherwise. *)
Class JsonWebToken : Type := {
  jwt_signAsync : Payload.t -> JwtSignOptions -> Z -> string + string;
  jwt_verify : string -> string -> Z -> option Payload.t
}.

(** What the flow expects of jsonwebtoken: a token that verifies under
    the secret it was signed with carries the payload that was signed. *)
Definition jwt_verify_returns_signed (J : JsonWebToken) : Prop :=
  forall payload options now token key now' payload',
    jwt_signAsync payload options now = inr token ->
    secret options = Some key ->
    jwt_verify token key now' = Some payload' ->
    payload' = payload.

(** class-validator's [@IsEmail()]. *)
Class ClassValidator : Type := {
  isEmail : string -> bool
}.

(** ** DTO/auth.dto.ts *)

Module RegisterDto.
Record t : Type := mk {
  name : string;
  email : string;
  password : string
}.
End RegisterDto.

Module LoginDto.
Record t : Type := mk {
  email : string;
  password : string
}.
End LoginDto.

(** [@IsNotEmpty()] on a string. *)
Definition IsNotEmpty (s : string) : bool :=
  negb (String.eqb s "").

(** [@Length(min, max)], read on ASCII text: there the characters the
    decorator counts are the bytes of the string. *)
Definition Length (min max : nat) (s : string) : bool :=
  (Nat.leb min (String.length s)) && (Nat.leb (String.length s) max).

Section Validation.
Context {validator : ClassValidator}.

(** The decorators of [RegisterDto], field by field ([@IsString()] holds
    of every [string]). *)
Definition validRegisterDto (dto : RegisterDto.t) : bool :=
  IsNotEmpty (RegisterDto.name dto)
  && (isEmail (RegisterDto.email dto) && IsNotEmpty (RegisterDto.email dto))
  && (IsNotEmpty (RegisterDto.password dto)
      && Length 7 25 (RegisterDto.password dto)).

Definition validLoginDto (dto : LoginDto.t) : bool :=
  (isEmail (LoginDto.email dto) && IsNotEmpty (LoginDto.email dto))
  && IsNotEmpty (LoginDto.password dto).

End Validation.

(** ** utils/password.util.ts *)

Section PasswordUtil.
Context {bcrypt : Bcrypt}.

(** [hashPassword(password, salt = 10)]; [drawn] is the salt bcrypt
    draws for this call. *)
Definition hashPassword (password : string) (salt : option Z) (drawn : string) : string :=
  bcrypt_hash password (orDefault 10 salt) drawn.

Definition validatePassword (password hashedPassword : string) : bool :=
  bcrypt_compare password hashedPassword.

End PasswordUtil.

(** ** auth.service.ts *)

Module RegisteredUser.
Record t : Type := mk {
  id : Z;
  email : string
}.
End RegisteredUser.

(** What [register] returns. *)
Module RegisterResponse.
Record t : Type := mk {
  success : bool;
  message : string;
  user : RegisteredUser.t
}.
End RegisterResponse.

Record LoginResponse : Type := mkLoginResponse {
  access_token : string
}.

Section AuthService.
Context {bcrypt : Bcrypt} {jwt : JsonWebToken}.

Definition checkExistingUser (email : string) : Promise (option Users.t) :=
  findUnique_email email.

(** The options of the call are read from the configuration service
    inside the method. *)
Definition generateToken (payload : Payload.t) (now : Z) : Promise string :=
  expires <- config_get "JWT_EXPIRES_IN" ;;
  key <- config_get "JWT_SECRET" ;;
  match jwt_signAsync payload {| expiresIn := expires; secret := key |} now with
  | inr token => ret token
  | inl msg => throw (Error msg)
  end.

(** [register(dto)].  [drawn] is the salt bcrypt draws, [now] the time
    of the insert. *)
Definition register (dto : RegisterDto.t) (drawn : string) (now : Z)
  : Promise RegisterResponse.t :=
  let name := RegisterDto.name dto in
  let email := RegisterDto.email dto in
  let password := RegisterDto.password dto in
  existingUser <- checkExistingUser email ;;
  match existingUser with
  | Some _ => throw (BadRequestException "User already exists")
  | None =>
      let hashedPassword := hashPassword password None drawn in
      user <- create {| UsersCreateInput.email := email;
                        UsersCreateInput.name := name;
                        UsersCreateInput.password := hashedPassword;
                        UsersCreateInput.phone_number := None;
                        UsersCreateInput.role := None |} now ;;
      ret {| RegisterResponse.success := true;
             RegisterResponse.message := "User registered successfully";
             RegisterResponse.user := {| RegisteredUser.id := Users.Id user;
                              RegisteredUser.email := Users.email user |} |}
  end.

(** [register] from its second [await] on: what runs once the lookup has
    answered [existingUser].  Other requests may have run since the
    lookup, so the world this part runs in need not be the world the
    lookup saw. *)
Definition register_resume (existingUser : option Users.t) (dto : RegisterDto.t)
  (drawn : string) (now : Z) : Promise RegisterResponse.t :=
  let name := RegisterDto.name dto in
  let email := RegisterDto.email dto in
  let password := RegisterDto.password dto in
  match existingUser with
  | Some _ => throw (BadRequestException "User already exists")
  | None =>
      let hashedPassword := hashPassword password None drawn in
      user <- create {| UsersCreateInput.email := email;
                        UsersCreateInput.name := name;
                        UsersCreateInput.password := hashedPassword;
                        UsersCreateInput.phone_number := None;
                        UsersCreateInput.role := None |} now ;;
      ret {| RegisterResponse.success := true;
             RegisterResponse.message := "User registered successfully";
             RegisterResponse.user := {| RegisteredUser.id := Users.Id user;
                                         RegisteredUser.email := Users.email user |} |}
  end.

(** The name, the e-mail and the hash [register] would store fit their
    columns. *)
Definition registerFits (dto : RegisterDto.t) (drawn : string) : bool :=
  fitsColumn (RegisterDto.name dto)
  && fitsColumn (RegisterDto.email dto)
  && fitsColumn (hashPassword (RegisterDto.password dto) None drawn).

(** [login(dto)]; [now] is the time the token is issued. *)
Definition login (dto : LoginDto.t) (now : Z) : Promise LoginResponse :=
  let email := LoginDto.email dto in
  let password := LoginDto.password dto in
  existingUser <- checkExistingUser email ;;
  match existingUser with
  | None => throw (BadRequestException "Invalid credentials")
  | Some existingUser =>
      let isPasswordValid := validatePassword password (Users.password existingUser) in
      if negb isPasswordValid
      then throw (BadRequestException "Invalid credentials")
      else
        token <- generateToken {| Payload.sub := Users.Id existingUser;
                                  Payload.email := Users.email existingUser |} now ;;
        ret {| access_token := token |}
  end.

End AuthService.

(** ** The Passport JWT strategy *)

(** What [validate] returns, and Passport attaches to the request as
    [request.user]. *)
Module RequestUser.
Record t : Type := mk {
  userId : Z;
  name : string;
  email : string;
  role : Role
}.
End RequestUser.

(** The strategy keeps the option it passed to [super]. *)
Record JwtStrategy : Type := mkJwtStrategy {
  secretOrKey : string
}.

(** [new JwtStrategy(prisma, config)]: the secret is read once, here. *)
Definition JwtStrategy_constructor (config : ConfigService) : Outcome JwtStrategy :=
  let jwtSecret := get config "JWT_SECRET" in
  if falsy jwtSecret
  then Rejected (Error "JWT_SECRET is not defined in the configuration")
  else Resolved {| secretOrKey := orDefault "" jwtSecret |}.

(** [validate(payload)] *)
Definition validate (payload : Payload.t) : Promise RequestUser.t :=
  found <- findUnique_Id (Payload.sub payload) ;;
  match found with
  | None => throw (Error "Unauthorized")
  | Some u =>
      ret {| RequestUser.userId := Users.Id u;
             RequestUser.name := Users.name u;
             RequestUser.email := Users.email u;
             RequestUser.role := Users.role u |}
  end.

Section Passport.
Context {jwt : JsonWebToken}.

(** What the strategy does with the bearer token of a request: the
    library verifies signature and expiry with [secretOrKey] and answers
    401 when they fail; a verified payload goes to [validate]. *)
Definition authenticate (strategy : JwtStrategy) (token : string) (now : Z)
  : Promise RequestUser.t :=
  match jwt_verify token (secretOrKey strategy) now with
  | None => throw (UnauthorizedException "Unauthorized")
  | Some payload => validate payload
  end.

End Passport.

(** ** The roles guard of the guide *)

(** A route handler with the metadata its decorators attached. *)
Record Handler : Type := mkHandler {
  metadata : list (string * list string)
}.

Definition SetMetadata (key : string) (value : list string) (h : Handler) : Handler :=
  {| metadata := (key, value) :: metadata h |}.

(** [@Roles(...roles)] *)
Definition Roles (roles : list string) : Handler -> Handler :=
  SetMetadata "roles" roles.

(** [reflector.get(key, handler)]: [undefined] when no decorator set the
    key. *)
Fixpoint lookupMetadata (key : string) (entries : list (string * list string))
  : option (list string) :=
  match entries with
  | [] => None
  | (k, v) :: rest => if String.eqb k key then Some v else lookupMetadata key rest
  end.

Definition reflector_get (key : string) (h : Handler) : option (list string) :=
  lookupMetadata key (metadata h).

(** The part of the execution context the guard reads: the handler and
    the [user] of the request. *)
Record ExecutionContext : Type := mkExecutionContext {
  getHandler : Handler;
  request_user : RequestUser.t
}.

(** [Array.prototype.includes] on strings. *)
Definition includes (xs : list string) (x : string) : bool :=
  existsb (String.eqb x) xs.

(** [canActivate(context)].  [!roles] is true of [undefined] only: an
    array is truthy, the empty one too. *)
Definition canActivate (context : ExecutionContext) : bool :=
  match reflector_get "roles" (getHandler context) with
  | None => true
  | Some roles =>
      includes roles (Role_toString (RequestUser.role (request_user context)))
  end.

(** ** Constraints of the schema, as predicates on a table *)

Definition emails (t : UsersTable) : list string :=
  map Users.email (rows t).

Definition ids (t : UsersTable) : list Z :=
  map Users.Id (rows t).

Fixpoint distinct {A : Type} (eqb : A -> A -> bool) (xs : list A) : bool :=
  match xs with
  | [] => true
  | x :: rest => negb (existsb (eqb x) rest) && distinct eqb rest
  end.

(** [email @unique], [Id @unique], and every [Id] was handed out by the
    counter. *)
Definition tableOk (t : UsersTable) : bool :=
  distinct String.eqb (emails t)
  && distinct Z.eqb (ids t)
  && forallb (fun i => i <? autoIncrement t) (ids t).

(** The number of rows with a given e-mail. *)
Definition countEmail (email : string) (t : UsersTable) : nat :=
  List.length (filter (hasEmail email) (rows t)).

Definition isAdmin (u : Users.t) : bool :=
  Role_eqb (Users.role u) admin.

(** ** Stand-ins for the libraries, to run the flow on examples *)

Module Sample.

Fixpoint endsWith (suffix s : string) : bool :=
  if String.eqb s suffix then true
  else match s with
       | EmptyString => false
       | String _ s' => endsWith suffix s'
       end.

(** Keeps the salt and the data in clear: good for running examples,
    nothing more. *)
Definition bcrypt : Bcrypt :=
  {| bcrypt_hash := fun data _ salt => salt ++ "$" ++ data;
     bcrypt_compare := fun data encrypted => endsWith ("$" ++ data) encrypted |}.

Fixpoint tally (n : nat) : string :=
  match n with
  | O => ""
  | S n' => String "i" (tally n')
  end.

Fixpoint untally (s : string) : option (nat * string) :=
  match s with
  | EmptyString => None
  | String c s' =>
      if Ascii.eqb c "." then Some (O, s')
      else if Ascii.eqb c "i" then
        match untally s' with
        | Some (n, rest) => Some (S n, rest)
        | None => None
        end
      else None
  end.

Fixpoint stripPrefix (p s : string) : option string :=
  match p with
  | EmptyString => Some s
  | String c p' =>
      match s with
      | EmptyString => None
      | String d s' => if Ascii.eqb c d then stripPrefix p' s' else None
      end
  end.

(** A token is the key, the subject in unary and the e-mail, separated
    by dots; it never expires. *)
Definition jwt : JsonWebToken :=
  {| jwt_signAsync := fun payload options _ =>
       match secret options with
       | None => inl "secretOrPrivateKey must have a value"
       | Some key =>
           if Payload.sub payload <? 0 then inl "subject out of range"
           else inr (key ++ "." ++ tally (Z.to_nat (Payload.sub payload))
                         ++ "." ++ Payload.email payload)
       end;
     jwt_verify := fun token key _ =>
       match stripPrefix (key ++ ".") token with
       | None => None
       | Some body =>
           match untally body with
           | Some (n, e) => Some {| Payload.sub := Z.of_nat n; Payload.email := e |}
           | None => None
           end
       end |}.

Fixpoint mentions (c : ascii) (s : string) : bool :=
  match s with
  | EmptyString => false
  | String d s' => Ascii.eqb c d || mentions c s'
  end.

Definition validator : ClassValidator :=
  {| isEmail := mentions "@" |}.

Definition env : ConfigService :=
  [("JWT_SECRET", "s3cret"); ("JWT_EXPIRES_IN", "1h")].

Definition start : World :=
  {| users := emptyTable; config := env |}.

Definition jane : RegisterDto.t :=
  {| RegisterDto.name := "Jane";
     RegisterDto.email := "jane@x.com";
     RegisterDto.password := "secret12" |}.

Definition janeRow : Users.t :=
  {| Users.Id := 1;
     Users.name := "Jane";
     Users.email := "jane@x.com";
     Users.password := "salt$secret12";
     Users.phone_number := None;
     Users.role := user;
     Users.createdAt := 100;
     Users.updatedAt := 100 |}.

(** The world after Jane registered at time 100. *)
Definition withJane : World :=
  {| users := {| rows := [janeRow]; autoIncrement := 2 |}; config := env |}.

Definition janeLogin : LoginDto.t :=
  {| LoginDto.email := "jane@x.com"; LoginDto.password := "secret12" |}.

Definition janeWrong : LoginDto.t :=
  {| LoginDto.email := "jane@x.com"; LoginDto.password := "wrong" |}.

Definition nobody : LoginDto.t :=
  {| LoginDto.email := "joe@x.com"; LoginDto.password := "secret12" |}.

Definition janeToken : string := "s3cret.i.jane@x.com".

Definition strategy : JwtStrategy := {| secretOrKey := "s3cret" |}.

(** The same table, after the configuration lost its secret, and after
    the secret was replaced. *)
Definition withoutSecret : World :=
  {| users := users withJane; config := [("JWT_EXPIRES_IN", "1h")] |}.

Definition otherSecret : World :=
  {| users := users withJane;
     config := [("JWT_SECRET", "0ther"); ("JWT_EXPIRES_IN", "1h")] |}.

Definition bare : Handler := {| metadata := [] |}.

Definition asRole (r : Role) : RequestUser.t :=
  {| RequestUser.userId := 1;
     RequestUser.name := "Jane";
     RequestUser.email := "jane@x.com";
     RequestUser.role := r |}.

(** A name of 192 characters, one more than the column holds, in an
    input that passes the decorators of [RegisterDto]. *)
Definition longName : string := tally 192.

Definition vera : RegisterDto.t :=
  {| RegisterDto.name := longName;
     RegisterDto.email := "vera@x.com";
     RegisterDto.password := "secret12" |}.

Definition bobRow : Users.t :=
  {| Users.Id := 2;
     Users.name := "Bob";
     Users.email := "bob@x.com";
     Users.password := "salt$hunter22";
     Users.phone_number := None;
     Users.role := user;
     Users.createdAt := 110;
     Users.updatedAt := 110 |}.

(** Jane and Bob registered, then the row of Jane was deleted. *)
Definition afterJaneLeft : World :=
  {| users := {| rows := [bobRow]; autoIncrement := 3 |}; config := env |}.

End Sample.

(** ** Runs of the flow *)

(** A call of one of the three operations, with what the environment
    supplies to it. *)
Inductive Request : Type :=
| CallRegister (dto : RegisterDto.t) (drawn : string) (now : Z)
| CallLogin (dto : LoginDto.t) (now : Z)
| CallAuthenticate (strategy : JwtStrategy) (token : string) (now : Z).

Section Runs.
Context {bcrypt : Bcrypt} {jwt : JsonWebToken}.

(** The world a call leaves behind, whatever its outcome. *)
Definition serve (r : Request) (w : World) : World :=
  match r with
  | CallRegister dto drawn now => snd (register dto drawn now w)
  | CallLogin dto now => snd (login dto now w)
  | CallAuthenticate strategy token now => snd (authenticate strategy token now w)
  end.

(** Calls served one after the other. *)
Fixpoint run (rs : list Request) (w : World) : World :=
  match rs with
  | [] => w
  | r :: rest => run rest (serve r w)
  end.

End Runs.

(** ** Runs with requests in between *)

(** A step of a run in which requests overlap: a call that runs alone,
    or the rest of a [register] whose lookup answered [existingUser]
    some steps ago. *)
Inductive Step : Type :=
| Alone (r : Request)
| ResumeRegister (existingUser : option Users.t) (dto : RegisterDto.t)
    (drawn : string) (now : Z).

Section Steps.
Context {bcrypt : Bcrypt} {jwt : JsonWebToken}.

Definition serveStep (s : Step) (w : World) : World :=
  match s with
  | Alone r => serve r w
  | ResumeRegister existingUser dto drawn now =>
      snd (register_resume existingUser dto drawn now w)
  end.

Fixpoint runSteps (steps : list Step) (w : World) : World :=
  match steps with
  | [] => w
  | s :: rest => runSteps rest (serveStep s w)
  end.

End Steps.

(** Each element is below all that follow it. *)
Fixpoint ascending (l : list Z) : bool :=
  match l with
  | [] => true
  | x :: rest => forallb (Z.ltb x) rest && ascending rest
  end.

(** ** The authentication guide *)

(** The service, strategy and controller the guide builds, over its own
    [User] model: [id] is the key, [role] is a string with default
    ["user"].  None of them writes to the table, so the table is the
    list of its rows and each method a function of it. *)
Module AuthGuide.

Module User.
Record t : Type := mk {
  id : Z;
  email : string;
  password : string;
  name : string;
  role : string;
  createdAt : Z;
  updatedAt : Z
}.
End User.

(** The payload [generateToken] takes. *)
Module TokenPayload.
Record t : Type := mk {
  userId : Z;
  email : string
}.
End TokenPayload.

(** What [validate] returns. *)
Module RequestUser.
Record t : Type := mk {
  userId : Z;
  email : string;
  role : string
}.
End RequestUser.

(** The body of [POST /auth/login]. *)
Module LoginBody.
Record t : Type := mk {
  email : string;
  password : string
}.
End LoginBody.

(** [enum Role { Admin = "admin", User = "user" }] *)
Module Role.
Definition Admin : string := "admin".
Definition User : string := "user".
End Role.

Definition hasEmail (email : string) (u : User.t) : bool :=
  String.eqb (User.email u) email.

Definition hasId (id : Z) (u : User.t) : bool :=
  Z.eqb (User.id u) id.

(** [prisma.user.findUnique({ where: { email } })] *)
Definition findUnique_email (table : list User.t) (email : string) : option User.t :=
  find (hasEmail email) table.

(** [prisma.user.findUnique({ where: { id } })] *)
Definition findUnique_id (table : list User.t) (id : Z) : option User.t :=
  find (hasId id) table.

Section Service.
Context {bcrypt : Bcrypt}.

(** [jwtService.sign(payload)], with the secret and expiry the module
    was registered with: the token, or the message of the [Error]. *)
Variable sign : TokenPayload.t -> string + string.

Definition hashPassword (password drawn : string) : string :=
  bcrypt_hash password 10 drawn.

Definition validatePassword (password hashedPassword : string) : bool :=
  bcrypt_compare password hashedPassword.

(** [validateUser(email, password)]: the user, or [null]. *)
Definition validateUser (table : list User.t) (email password : string)
  : option User.t :=
  match findUnique_email table email with
  | Some found =>
      if validatePassword password (User.password found) then Some found else None
  | None => None
  end.

Definition generateToken (payload : TokenPayload.t) : Outcome string :=
  match sign payload with
  | inr token => Resolved token
  | inl msg => Rejected (Error msg)
  end.

(** [AuthController.login(body)] *)
Definition login (table : list User.t) (body : LoginBody.t) : Outcome LoginResponse :=
  match validateUser table (LoginBody.email body) (LoginBody.password body) with
  | None => Rejected (Error "Invalid credentials")
  | Some found =>
      match generateToken {| TokenPayload.userId := User.id found;
                             TokenPayload.email := User.email found |} with
      | Resolved token => Resolved {| access_token := token |}
      | Rejected e => Rejected e
      end
  end.

End Service.

(** [JwtStrategy.validate(payload)] *)
Definition validate (table : list User.t) (payload : TokenPayload.t)
  : Outcome RequestUser.t :=
  match findUnique_id table (TokenPayload.userId payload) with
  | None => Rejected (Error "Unauthorized")
  | Some found =>
      Resolved {| RequestUser.userId := User.id found;
                  RequestUser.email := User.email found;
                  RequestUser.role := User.role found |}
  end.

(** [RolesGuard.canActivate], on the handler and the [user] of the
    request. *)
Definition canActivate (handler : Handler) (requestUser : RequestUser.t) : bool :=
  match reflector_get "roles" handler with
  | None => true
  | Some roles => includes roles (RequestUser.role requestUser)
  end.

(** The [adminRoute] of the guide: [@Roles(Role.Admin)]. *)
Definition adminRoute (bare : Handler) : Handler :=
  Roles [Role.Admin] bare.

Definition emails (table : list User.t) : list string :=
  map User.email table.

Definition ids (table : list User.t) : list Z :=
  map User.id table.

(** [email @unique] and [id @id]. *)
Definition tableOk (table : list User.t) : bool :=
  distinct String.eqb (emails table) && distinct Z.eqb (ids table).

End AuthGuide.

(** A table and a signing function to run the guide on. *)
Module AuthGuideSample.

Definition root : AuthGuide.User.t :=
  {| AuthGuide.User.id := 1;
     AuthGuide.User.email := "root@x.com";
     AuthGuide.User.password := "salt$toor1234";
     AuthGuide.User.name := "Root";
     AuthGuide.User.role := "admin";
     AuthGuide.User.createdAt := 0;
     AuthGuide.User.updatedAt := 0 |}.

Definition bob : AuthGuide.User.t :=
  {| AuthGuide.User.id := 2;
     AuthGuide.User.email := "bob@x.com";
     AuthGuide.User.password := "salt$hunter22";
     AuthGuide.User.name := "Bob";
     AuthGuide.User.role := "user";
     AuthGuide.User.createdAt := 5;
     AuthGuide.User.updatedAt := 5 |}.

Definition table : list AuthGuide.User.t := [root; bob].

Definition sign (payload : AuthGuide.TokenPayload.t) : string + string :=
  if AuthGuide.TokenPayload.userId payload <? 0 then inl "subject out of range"
  else inr ("k." ++ Sample.tally (Z.to_nat (AuthGuide.TokenPayload.userId payload))
                 ++ "." ++ AuthGuide.TokenPayload.email payload).

Definition bobLogin : AuthGuide.LoginBody.t :=
  {| AuthGuide.LoginBody.email := "bob@x.com";
     AuthGuide.LoginBody.password := "hunter22" |}.

Definition bobWrong : AuthGuide.LoginBody.t :=
  {| AuthGuide.LoginBody.email := "bob@x.com";
     AuthGuide.LoginBody.password := "hunter23" |}.

End AuthGuideSample.

(** ** The user service of the DTO guide *)

(** [UserService] over the [User] model of that guide.  [update] takes
    an [UpdateUserDto] the guide never shows, and is left out.  An [id]
    stands for a 32-bit integer, which is what the table holds; what the
    Prisma client does with a number it cannot take for an [Int] is not
    part of the model. *)
Module UserGuide.

(** Nest's [NotFoundException] and the error of the Prisma client. *)
Inductive Exception : Type :=
| NotFoundException (message : string)
| PrismaClientKnownRequestError (code : string).

(** The status the exception filter answers with. *)
Definition httpStatus (e : Exception) : Z :=
  match e with
  | NotFoundException _ => 404
  | PrismaClientKnownRequestError _ => 500
  end.

Inductive Outcome (A : Type) : Type :=
| Resolved (value : A)
| Rejected (reason : Exception).

Arguments Resolved {A} value.
Arguments Rejected {A} reason.

Module User.
Record t : Type := mk {
  id : Z;
  name : string;
  email : string;
  password : string;
  createdAt : Z;
  updatedAt : Z
}.
End User.

Module CreateUserDto.
Record t : Type := mk {
  name : string;
  email : string;
  password : string
}.
End CreateUserDto.

(** What [remove] returns. *)
Record Removed : Type := mkRemoved {
  message : string
}.

(** The [User] table: its rows and the next [id]. *)
Record Db : Type := mkDb {
  user : list User.t;
  autoIncrement : Z
}.

Definition hasEmail (email : string) (u : User.t) : bool :=
  String.eqb (User.email u) email.

Definition hasId (id : Z) (u : User.t) : bool :=
  Z.eqb (User.id u) id.

(** [prisma.user.create({ data })]: P2002 when the e-mail is taken. *)
Definition prisma_create (data : CreateUserDto.t) (now : Z) (db : Db)
  : Outcome User.t * Db :=
  if existsb (hasEmail (CreateUserDto.email data)) (user db)
  then (Rejected (PrismaClientKnownRequestError "P2002"), db)
  else
    let u := {| User.id := autoIncrement db;
                User.name := CreateUserDto.name data;
                User.email := CreateUserDto.email data;
                User.password := CreateUserDto.password data;
                User.createdAt := now;
                User.updatedAt := now |} in
    (Resolved u, {| user := user db ++ [u];
                    autoIncrement := autoIncrement db + 1 |}).

(** [prisma.user.findUnique({ where: { id } })] *)
Definition prisma_findUnique (id : Z) (db : Db) : option User.t :=
  find (hasId id) (user db).

(** [prisma.user.delete({ where: { id } })]: P2025 when no row has the
    [id]. *)
Definition prisma_delete (id : Z) (db : Db) : Outcome User.t * Db :=
  match find (hasId id) (user db) with
  | None => (Rejected (PrismaClientKnownRequestError "P2025"), db)
  | Some u =>
      (Resolved u, {| user := filter (fun v => negb (hasId id v)) (user db);
                      autoIncrement := autoIncrement db |})
  end.

Section Service.

(** How a template literal prints a number. *)
Variable Number_toString : Z -> string.

Definition create (createUserDto : CreateUserDto.t) (now : Z) (db : Db)
  : Outcome User.t * Db :=
  prisma_create createUserDto now db.

Definition findAll (db : Db) : Outcome (list User.t) * Db :=
  (Resolved (user db), db).

Definition findOne (id : Z) (db : Db) : Outcome User.t * Db :=
  match prisma_findUnique id db with
  | None =>
      (Rejected (NotFoundException
                   ("User with ID " ++ Number_toString id ++ " not found.")), db)
  | Some u => (Resolved u, db)
  end.

Definition remove (id : Z) (db : Db) : Outcome Removed * Db :=
  match prisma_delete id db with
  | (Rejected e, db') => (Rejected e, db')
  | (Resolved _, db') =>
      (Resolved {| message := "User with ID " ++ Number_toString id
                              ++ " deleted successfully." |}, db')
  end.

End Service.

Definition dbOk (db : Db) : bool :=
  distinct String.eqb (map User.email (user db))
  && distinct Z.eqb (map User.id (user db))
  && forallb (fun i => i <? autoIncrement db) (map User.id (user db)).

(** Decimal digits, for running examples. *)
Definition decimal (n : Z) : string :=
  NilZero.string_of_int (Z.to_int n).

Definition ann : CreateUserDto.t :=
  {| CreateUserDto.name := "Ann";
     CreateUserDto.email := "ann@x.com";
     CreateUserDto.password := "Passw0rd" |}.

Definition ben : CreateUserDto.t :=
  {| CreateUserDto.name := "Ben";
     CreateUserDto.email := "ben@x.com";
     CreateUserDto.password := "S3cretpw" |}.

Definition empty : Db := {| user := []; autoIncrement := 1 |}.

(** Ann, then Ben. *)
Definition two : Db :=
  snd (prisma_create ben 20 (snd (prisma_create ann 10 empty))).

End UserGuide.

(** ** The password rule of the DTO guide *)

(** [UpdatePasswordDto]: [@Length(8, 20)] and
    [@Matches(/(?=.*\d)(?=.*[a-z])(?=.*[A-Z]).{8,}/)], read on ASCII
    text, where a character is a byte and the line terminators are LF
    and CR.  The pattern is
    searched for, not anchored: it matches when, from some position, the
    rest of the line (a dot stops at a line terminator) holds a digit, a
    lower-case and an upper-case letter and has eight characters at
    least. *)
Module UpdatePasswordDto.

Definition isLineTerminator (c : ascii) : bool :=
  Ascii.eqb c "010" || Ascii.eqb c "013".

Definition between (lo hi : nat) (c : ascii) : bool :=
  Nat.leb lo (nat_of_ascii c) && Nat.leb (nat_of_ascii c) hi.

(** [\d], [[a-z]] and [[A-Z]]. *)
Definition isDigit : ascii -> bool := between 48 57.
Definition isLower : ascii -> bool := between 97 122.
Definition isUpper : ascii -> bool := between 65 90.

(** What [.*] can run over from the start of [s]. *)
Fixpoint restOfLine (s : string) : string :=
  match s with
  | EmptyString => EmptyString
  | String c s' => if isLineTerminator c then EmptyString else String c (restOfLine s')
  end.

Fixpoint anyChar (p : ascii -> bool) (s : string) : bool :=
  match s with
  | EmptyString => false
  | String c s' => p c || anyChar p s'
  end.

(** The pattern, tried at the start of [s]. *)
Definition matchesHere (s : string) : bool :=
  anyChar isDigit (restOfLine s)
  && anyChar isLower (restOfLine s)
  && anyChar isUpper (restOfLine s)
  && Nat.leb 8 (String.length (restOfLine s)).

(** The pattern, tried at every position. *)
Fixpoint matchesPattern (s : string) : bool :=
  matchesHere s
  || match s with
     | EmptyString => false
     | String _ s' => matchesPattern s'
     end.

Definition valid (newPassword : string) : bool :=
  Length 8 20 newPassword && matchesPattern newPassword.

End UpdatePasswordDto.

(** * Properties *)

(** ** The stand-ins run the scenario of the specification *)

Example sample_register :
  @register Sample.bcrypt Sample.jane "salt" 100 Sample.start
  = (Resolved {| RegisterResponse.success := true;
                 RegisterResponse.message := "User registered successfully";
                 RegisterResponse.user := {| RegisteredUser.id := 1;
                                  RegisteredUser.email := "jane@x.com" |} |},
     Sample.withJane).
Proof. reflexivity. Qed.

Example sample_login :
  @login Sample.bcrypt Sample.jwt Sample.janeLogin 100 Sample.withJane
  = (Resolved {| access_token := Sample.janeToken |}, Sample.withJane).
Proof. reflexivity. Qed.

Example sample_login_wrong :
  fst (@login Sample.bcrypt Sample.jwt Sample.janeWrong 100 Sample.withJane)
  = Rejected (BadRequestException "Invalid credentials").
Proof. reflexivity. Qed.

Example sample_authenticate :
  @authenticate Sample.jwt Sample.strategy Sample.janeToken 101 Sample.withJane
  = (Resolved (Sample.asRole user), Sample.withJane).
Proof. reflexivity. Qed.

Example sample_tableOk : tableOk (users Sample.withJane) = true.
Proof. reflexivity. Qed.

(** A caller of [create] that names a role gets it: the default applies
    only when none is given. *)
Example create_with_role :
  fst (create {| UsersCreateInput.email := "root@x.com";
                 UsersCreateInput.name := "Root";
                 UsersCreateInput.password := "h";
                 UsersCreateInput.phone_number := None;
                 UsersCreateInput.role := Some admin |} 0 Sample.start)
  = Resolved {| Users.Id := 1; Users.name := "Root"; Users.email := "root@x.com";
                Users.password := "h"; Users.phone_number := None;
                Users.role := admin; Users.createdAt := 0; Users.updatedAt := 0 |}.
Proof. reflexivity. Qed.

(** ** Rows, lookups and the unique indexes *)

Lemma hasEmail_true (e : string) (u : Users.t) :
  hasEmail e u = true <-> Users.email u = e.
Proof. unfold hasEmail. apply String.eqb_eq. Qed.

Lemma hasId_true (i : Z) (u : Users.t) :
  hasId i u = true <-> Users.Id u = i.
Proof. unfold hasId. apply Z.eqb_eq. Qed.

Lemma existsb_string_In (x : string) (l : list string) :
  existsb (String.eqb x) l = true <-> In x l.
Proof.
  rewrite existsb_exists. split.
  - intros [y [Hy E]]. apply String.eqb_eq in E. now subst.
  - intros H. exists x. split; [assumption | apply String.eqb_refl].
Qed.

Lemma existsb_Z_In (x : Z) (l : list Z) :
  existsb (Z.eqb x) l = true <-> In x l.
Proof.
  rewrite existsb_exists. split.
  - intros [y [Hy E]]. apply Z.eqb_eq in E. now subst.
  - intros H. exists x. split; [assumption | apply Z.eqb_refl].
Qed.

Lemma find_email_absent (e : string) (rs : list Users.t) :
  ~ In e (map Users.email rs) -> find (hasEmail e) rs = None.
Proof.
  induction rs as [|u rs IH]; simpl; intros H; [reflexivity|].
  destruct (hasEmail e u) eqn:E.
  - apply hasEmail_true in E. tauto.
  - apply IH. tauto.
Qed.

Lemma existsb_email_absent (e : string) (rs : list Users.t) :
  ~ In e (map Users.email rs) -> existsb (hasEmail e) rs = false.
Proof.
  induction rs as [|u rs IH]; simpl; intros H; [reflexivity|].
  destruct (hasEmail e u) eqn:E.
  - apply hasEmail_true in E. tauto.
  - apply IH. tauto.
Qed.

Lemma filter_email_absent (e : string) (rs : list Users.t) :
  ~ In e (map Users.email rs) -> filter (hasEmail e) rs = [].
Proof.
  induction rs as [|u rs IH]; simpl; intros H; [reflexivity|].
  destruct (hasEmail e u) eqn:E.
  - apply hasEmail_true in E. tauto.
  - apply IH. tauto.
Qed.

Lemma find_email_present (e : string) (rs : list Users.t) :
  In e (map Users.email rs) ->
  exists u, find (hasEmail e) rs = Some u /\ In u rs /\ Users.email u = e.
Proof.
  induction rs as [|u rs IH]; simpl; intros H; [contradiction|].
  destruct (hasEmail e u) eqn:E.
  - exists u. apply hasEmail_true in E. auto.
  - destruct H as [H|H].
    + apply hasEmail_true in H. congruence.
    + destruct (IH H) as [v [F [I Ev]]]. exists v. auto.
Qed.

Lemma find_email_None_absent (e : string) (rs : list Users.t) :
  find (hasEmail e) rs = None -> ~ In e (map Users.email rs).
Proof.
  intros F H. destruct (find_email_present e rs H) as [u [F' _]]. congruence.
Qed.

Lemma find_snoc {A : Type} (f : A -> bool) (xs : list A) (x : A) :
  find f (xs ++ [x]) =
  match find f xs with
  | Some y => Some y
  | None => if f x then Some x else None
  end.
Proof.
  induction xs as [|y xs IH]; simpl; [reflexivity|].
  destruct (f y); [reflexivity | exact IH].
Qed.

(** Under the unique index on [email], the lookup by the e-mail of a row
    returns that row. *)
Lemma find_email_of_row (rs : list Users.t) (u : Users.t) :
  distinct String.eqb (map Users.email rs) = true ->
  In u rs ->
  find (hasEmail (Users.email u)) rs = Some u.
Proof.
  induction rs as [|a rs IH]; simpl; intros D H; [contradiction|].
  apply andb_true_iff in D. destruct D as [Na D].
  destruct H as [->|H].
  - unfold hasEmail. now rewrite String.eqb_refl.
  - destruct (hasEmail (Users.email u) a) eqn:E.
    + apply hasEmail_true in E. apply negb_true_iff in Na.
      assert (In (Users.email a) (map Users.email rs)) as I
        by (rewrite E; now apply in_map).
      apply existsb_string_In in I. congruence.
    + now apply IH.
Qed.

(** Under the unique index on [Id], the lookup by the [Id] of a row
    returns that row. *)
Lemma find_id_of_row (rs : list Users.t) (u : Users.t) :
  distinct Z.eqb (map Users.Id rs) = true ->
  In u rs ->
  find (hasId (Users.Id u)) rs = Some u.
Proof.
  induction rs as [|a rs IH]; simpl; intros D H; [contradiction|].
  apply andb_true_iff in D. destruct D as [Na D].
  destruct H as [->|H].
  - unfold hasId. now rewrite Z.eqb_refl.
  - destruct (hasId (Users.Id u) a) eqn:E.
    + apply hasId_true in E. apply negb_true_iff in Na.
      assert (In (Users.Id a) (map Users.Id rs)) as I
        by (rewrite E; now apply in_map).
      apply existsb_Z_In in I. congruence.
    + now apply IH.
Qed.

Lemma find_id_absent (i : Z) (rs : list Users.t) :
  (forall u, In u rs -> Users.Id u <> i) -> find (hasId i) rs = None.
Proof.
  induction rs as [|u rs IH]; simpl; intros H; [reflexivity|].
  destruct (hasId i u) eqn:E.
  - apply hasId_true in E. exfalso. apply (H u); auto.
  - apply IH. intros v Hv. apply H. auto.
Qed.

(** Under the unique index, an e-mail that occurs in the table occurs in
    exactly one row. *)
Lemma count_email_present (e : string) (rs : list Users.t) :
  distinct String.eqb (map Users.email rs) = true ->
  In e (map Users.email rs) ->
  List.length (filter (hasEmail e) rs) = 1%nat.
Proof.
  induction rs as [|a rs IH]; simpl; intros D H; [contradiction|].
  apply andb_true_iff in D. destruct D as [Na D].
  apply negb_true_iff in Na.
  destruct (hasEmail e a) eqn:E.
  - apply hasEmail_true in E. subst e. simpl.
    rewrite filter_email_absent; [reflexivity|].
    intros I. apply existsb_string_In in I. congruence.
  - destruct H as [H|H].
    + apply hasEmail_true in H. congruence.
    + now apply IH.
Qed.

Lemma tableOk_emails (t : UsersTable) :
  tableOk t = true -> distinct String.eqb (emails t) = true.
Proof.
  unfold tableOk. intros H.
  apply andb_true_iff in H. destruct H as [H _].
  apply andb_true_iff in H. tauto.
Qed.

Lemma tableOk_ids (t : UsersTable) :
  tableOk t = true -> distinct Z.eqb (ids t) = true.
Proof.
  unfold tableOk. intros H.
  apply andb_true_iff in H. destruct H as [H _].
  apply andb_true_iff in H. tauto.
Qed.

(** ** The stand-ins satisfy what the flow expects of the libraries *)

Lemma endsWith_append (a p : string) :
  Sample.endsWith p (a ++ p) = true.
Proof.
  induction a as [|c a IH]; simpl.
  - destruct p; simpl; now rewrite ?String.eqb_refl, ?Ascii.eqb_refl.
  - match goal with
    | |- (if ?b then _ else _) = _ => destruct b
    end; [reflexivity | exact IH].
Qed.

Lemma sample_bcrypt_accepts : bcrypt_accepts_own_hash Sample.bcrypt.
Proof.
  intros data rounds salt. simpl.
  apply (endsWith_append salt ("$" ++ data)).
Qed.

Lemma stripPrefix_dot (key body : string) :
  Sample.stripPrefix (key ++ ".") (key ++ String "." body) = Some body.
Proof.
  induction key as [|c key IH]; simpl; [reflexivity|].
  now rewrite Ascii.eqb_refl.
Qed.

Lemma untally_tally (n : nat) (rest : string) :
  Sample.untally (Sample.tally n ++ String "." rest) = Some (n, rest).
Proof.
  induction n as [|n IH]; simpl; [reflexivity|].
  now rewrite IH.
Qed.

Lemma sample_jwt_returns_signed : jwt_verify_returns_signed Sample.jwt.
Proof.
  intros payload options now token key now' payload' S K V.
  cbn [jwt_verify jwt_signAsync Sample.jwt] in S, V. rewrite K in S.
  destruct (Payload.sub payload <? 0) eqn:Neg; [discriminate|].
  injection S as <-.
  rewrite stripPrefix_dot, untally_tally in V.
  injection V as <-.
  apply Z.ltb_ge in Neg. rewrite Z2Nat.id by assumption.
  now destruct payload.
Qed.

(** ** Register *)

(** The three paths of [register], as equations. *)
Lemma register_existing (bcrypt : Bcrypt) (w : World) (dto : RegisterDto.t)
  (drawn : string) (now : Z) :
  In (RegisterDto.email dto) (emails (users w)) ->
  register dto drawn now w
  = (Rejected (BadRequestException "User already exists"), w).
Proof.
  intros H. apply find_email_present in H. destruct H as [u [F _]].
  unfold register, bind, checkExistingUser, findUnique_email.
  now rewrite F.
Qed.

Lemma fitsColumns_registerFits (bcrypt : Bcrypt) (dto : RegisterDto.t)
  (drawn : string) :
  fitsColumns {| UsersCreateInput.email := RegisterDto.email dto;
                 UsersCreateInput.name := RegisterDto.name dto;
                 UsersCreateInput.password :=
                   hashPassword (RegisterDto.password dto) None drawn;
                 UsersCreateInput.phone_number := None;
                 UsersCreateInput.role := None |}
  = registerFits dto drawn.
Proof. unfold fitsColumns, registerFits. cbn. apply andb_true_r. Qed.

Lemma register_fresh (bcrypt : Bcrypt) (w : World) (dto : RegisterDto.t)
  (drawn : string) (now : Z) :
  ~ In (RegisterDto.email dto) (emails (users w)) ->
  registerFits dto drawn = true ->
  register dto drawn now w
  = (Resolved {| RegisterResponse.success := true;
                 RegisterResponse.message := "User registered successfully";
                 RegisterResponse.user :=
                   {| RegisteredUser.id := autoIncrement (users w);
                      RegisteredUser.email := RegisterDto.email dto |} |},
     {| users :=
          {| rows := rows (users w)
                     ++ [ {| Users.Id := autoIncrement (users w);
                             Users.name := RegisterDto.name dto;
                             Users.email := RegisterDto.email dto;
                             Users.password :=
                               bcrypt_hash (RegisterDto.password dto) 10 drawn;
                             Users.phone_number := None;
                             Users.role := user;
                             Users.createdAt := now;
                             Users.updatedAt := now |} ];
             autoIncrement := autoIncrement (users w) + 1 |};
        config := config w |}).
Proof.
  intros H Hfits.
  unfold register, bind, checkExistingUser, findUnique_email, create.
  rewrite (find_email_absent _ _ H), fitsColumns_registerFits, Hfits.
  cbn [negb UsersCreateInput.email].
  rewrite (existsb_email_absent _ _ H). reflexivity.
Qed.

Lemma register_overlong (bcrypt : Bcrypt) (w : World) (dto : RegisterDto.t)
  (drawn : string) (now : Z) :
  ~ In (RegisterDto.email dto) (emails (users w)) ->
  registerFits dto drawn = false ->
  register dto drawn now w
  = (Rejected (PrismaClientKnownRequestError "P2000"), w).
Proof.
  intros H Hfits.
  unfold register, bind, checkExistingUser, findUnique_email, create.
  rewrite (find_email_absent _ _ H), fitsColumns_registerFits, Hfits.
  reflexivity.
Qed.

Lemma email_absent_dec (e : string) (t : UsersTable) :
  In e (emails t) \/ ~ In e (emails t).
Proof.
  destruct (in_dec string_dec e (emails t)); [left | right]; assumption.
Qed.

(** Which path a call takes. *)
Lemma register_cases (bcrypt : Bcrypt) (w : World) (dto : RegisterDto.t)
  (drawn : string) (now : Z) :
  In (RegisterDto.email dto) (emails (users w))
  \/ (~ In (RegisterDto.email dto) (emails (users w))
      /\ registerFits dto drawn = false)
  \/ (~ In (RegisterDto.email dto) (emails (users w))
      /\ registerFits dto drawn = true).
Proof.
  destruct (email_absent_dec (RegisterDto.email dto) (users w)) as [H|H];
    [now left | right].
  destruct (registerFits dto drawn); [right | left]; auto.
Qed.







(** ** Login *)

Lemma login_unknown_email (bcrypt : Bcrypt) (jwt : JsonWebToken) (w : World)
  (dto : LoginDto.t) (now : Z) :
  ~ In (LoginDto.email dto) (emails (users w)) ->
  login dto now w = (Rejected (BadRequestException "Invalid credentials"), w).
Proof.
  intros H. unfold login, bind, checkExistingUser, findUnique_email.
  now rewrite (find_email_absent _ _ H).
Qed.

Lemma login_wrong_password (bcrypt : Bcrypt) (jwt : JsonWebToken) (w : World)
  (dto : LoginDto.t) (now : Z) (u : Users.t) :
  find (hasEmail (LoginDto.email dto)) (rows (users w)) = Some u ->
  validatePassword (LoginDto.password dto) (Users.password u) = false ->
  login dto now w = (Rejected (BadRequestException "Invalid credentials"), w).
Proof.
  intros F V. unfold login, bind, checkExistingUser, findUnique_email.
  rewrite F. cbn beta iota. now rewrite V.
Qed.

Lemma login_right_password (bcrypt : Bcrypt) (jwt : JsonWebToken) (w : World)
  (dto : LoginDto.t) (now : Z) (u : Users.t) :
  find (hasEmail (LoginDto.email dto)) (rows (users w)) = Some u ->
  validatePassword (LoginDto.password dto) (Users.password u) = true ->
  login dto now w
  = (match jwt_signAsync {| Payload.sub := Users.Id u;
                            Payload.email := Users.email u |}
                         {| expiresIn := get (config w) "JWT_EXPIRES_IN";
                            secret := get (config w) "JWT_SECRET" |} now with
     | inr token => Resolved {| access_token := token |}
     | inl msg => Rejected (Error msg)
     end, w).
Proof.
  intros F V.
  unfold login, bind, checkExistingUser, findUnique_email, generateToken,
    bind, config_get.
  rewrite F. cbn beta iota. rewrite V. cbn [negb].
  now destruct (jwt_signAsync _ _ now).
Qed.

(** C3.  A login with an e-mail no row has, and a login with the e-mail
    of a row whose stored hash the password fails against, reject with
    the same exception, [BadRequestException "Invalid credentials"]:
    same class, same message, same status. *)
Theorem login_failures_coincide
  (bcrypt : Bcrypt) (jwt : JsonWebToken)
  (w1 w2 : World) (dto1 dto2 : LoginDto.t) (now1 now2 : Z) (u : Users.t)
  (Habsent : ~ In (LoginDto.email dto1) (emails (users w1)))
  (Hfound : fst (checkExistingUser (LoginDto.email dto2) w2) = Resolved (Some u))
  (Hwrong : validatePassword (LoginDto.password dto2) (Users.password u) = false) :
  fst (login dto1 now1 w1) = Rejected (BadRequestException "Invalid credentials")
  /\ fst (login dto2 now2 w2) = fst (login dto1 now1 w1).
Proof.
  unfold checkExistingUser, findUnique_email in Hfound. cbn [fst] in Hfound.
  injection Hfound as F.
  rewrite (login_unknown_email bcrypt jwt w1 dto1 now1 Habsent).
  rewrite (login_wrong_password bcrypt jwt w2 dto2 now2 u F Hwrong).
  split; reflexivity.
Qed.

Lemma login_failures_coincide_witness :
  ~ In (LoginDto.email Sample.nobody) (emails (users Sample.withJane))
  /\ fst (checkExistingUser (LoginDto.email Sample.janeWrong) Sample.withJane)
     = Resolved (Some Sample.janeRow)
  /\ @validatePassword Sample.bcrypt (LoginDto.password Sample.janeWrong)
       (Users.password Sample.janeRow) = false
  /\ fst (@login Sample.bcrypt Sample.jwt Sample.nobody 100 Sample.withJane)
     = Rejected (BadRequestException "Invalid credentials")
  /\ fst (@login Sample.bcrypt Sample.jwt Sample.janeWrong 300 Sample.withJane)
     = fst (@login Sample.bcrypt Sample.jwt Sample.nobody 100 Sample.withJane).
Proof.
  assert (~ In (LoginDto.email Sample.nobody) (emails (users Sample.withJane)))
    as Habsent by (simpl; intros [H|[]]; discriminate H).
  split; [exact Habsent|].
  split; [reflexivity|].
  split; [reflexivity|].
  apply (login_failures_coincide Sample.bcrypt Sample.jwt
           Sample.withJane Sample.withJane Sample.nobody Sample.janeWrong
           100 300 Sample.janeRow Habsent eq_refl eq_refl).
Defined.

(** ** The strategy *)

Lemma JwtStrategy_constructor_secret (cfg : ConfigService) (strategy : JwtStrategy) :
  JwtStrategy_constructor cfg = Resolved strategy ->
  get cfg "JWT_SECRET" = Some (secretOrKey strategy)
  /\ secretOrKey strategy <> "".
Proof.
  unfold JwtStrategy_constructor.
  destruct (get cfg "JWT_SECRET") as [s|]; cbn [falsy]; [|discriminate].
  destruct (String.eqb s "") eqn:E; [discriminate|].
  intros H. injection H as <-. cbn [secretOrKey orDefault].
  split; [reflexivity | now apply String.eqb_neq].
Qed.

Lemma validate_spec (payload : Payload.t) (w : World) :
  validate payload w
  = (match find (hasId (Payload.sub payload)) (rows (users w)) with
     | Some u => Resolved {| RequestUser.userId := Users.Id u;
                             RequestUser.name := Users.name u;
                             RequestUser.email := Users.email u;
                             RequestUser.role := Users.role u |}
     | None => Rejected (Error "Unauthorized")
     end, w).
Proof.
  unfold validate, bind, findUnique_Id.
  now destruct (find (hasId (Payload.sub payload)) (rows (users w))).
Qed.

(** C4.  Let [u] be a row of a table that respects the unique indexes,
    and let the strategy be built from the configuration in force.  A
    login with the e-mail of [u] and a password its hash accepts, when
    it resolves, resolves to the token signed for the payload
    [{sub: u.Id, email: u.email}]; and whenever that token passes
    verification while [u] is still a row of the table, [authenticate]
    resolves to the identity of [u] (its [Id], name, e-mail and role),
    provided jsonwebtoken returns what was signed. *)
Theorem login_then_authenticate
  (bcrypt : Bcrypt) (jwt : JsonWebToken)
  (Hjwt : jwt_verify_returns_signed jwt)
  (w : World) (u : Users.t) (password : string) (now : Z) (token : string)
  (strategy : JwtStrategy) (w' : World) (now' : Z)
  (Hok : tableOk (users w) = true)
  (Hu : In u (rows (users w)))
  (Hpw : validatePassword password (Users.password u) = true)
  (Hstrategy : JwtStrategy_constructor (config w) = Resolved strategy)
  (Hlogin : fst (login {| LoginDto.email := Users.email u;
                          LoginDto.password := password |} now w)
            = Resolved {| access_token := token |})
  (Hok' : tableOk (users w') = true)
  (Hu' : In u (rows (users w')))
  (Hlive : jwt_verify token (secretOrKey strategy) now' <> None) :
  jwt_signAsync {| Payload.sub := Users.Id u; Payload.email := Users.email u |}
                {| expiresIn := get (config w) "JWT_EXPIRES_IN";
                   secret := Some (secretOrKey strategy) |} now
  = inr token
  /\ jwt_verify token (secretOrKey strategy) now'
     = Some {| Payload.sub := Users.Id u; Payload.email := Users.email u |}
  /\ authenticate strategy token now' w'
     = (Resolved {| RequestUser.userId := Users.Id u;
                    RequestUser.name := Users.name u;
                    RequestUser.email := Users.email u;
                    RequestUser.role := Users.role u |}, w').
Proof.
  destruct (JwtStrategy_constructor_secret _ _ Hstrategy) as [Hkey _].
  assert (find (hasEmail (Users.email u)) (rows (users w)) = Some u) as F
    by (apply find_email_of_row; [now apply tableOk_emails | exact Hu]).
  rewrite (login_right_password bcrypt jwt w
             {| LoginDto.email := Users.email u; LoginDto.password := password |}
             now u F Hpw) in Hlogin.
  cbn [fst] in Hlogin. rewrite Hkey in Hlogin.
  destruct (jwt_signAsync _ _ now) as [msg|signed] eqn:S; [discriminate|].
  injection Hlogin as ->.
  split; [reflexivity|].
  destruct (jwt_verify token (secretOrKey strategy) now') as [p|] eqn:V;
    [|congruence].
  assert (p = {| Payload.sub := Users.Id u; Payload.email := Users.email u |})
    as -> by (eapply Hjwt; [exact S | reflexivity | exact V]).
  split; [reflexivity|].
  unfold authenticate. rewrite V, validate_spec. cbn [Payload.sub].
  rewrite find_id_of_row; [reflexivity | now apply tableOk_ids | exact Hu'].
Qed.

Lemma login_then_authenticate_witness :
  jwt_verify_returns_signed Sample.jwt
  /\ tableOk (users Sample.withJane) = true
  /\ In Sample.janeRow (rows (users Sample.withJane))
  /\ @validatePassword Sample.bcrypt "secret12" (Users.password Sample.janeRow) = true
  /\ JwtStrategy_constructor (config Sample.withJane) = Resolved Sample.strategy
  /\ fst (@login Sample.bcrypt Sample.jwt Sample.janeLogin 100 Sample.withJane)
     = Resolved {| access_token := Sample.janeToken |}
  /\ @jwt_verify Sample.jwt Sample.janeToken (secretOrKey Sample.strategy) 100 <> None
  /\ @authenticate Sample.jwt Sample.strategy Sample.janeToken 100 Sample.withJane
     = (Resolved (Sample.asRole user), Sample.withJane).
Proof.
  assert (In Sample.janeRow (rows (users Sample.withJane))) as Hu
    by (simpl; auto).
  assert (@jwt_verify Sample.jwt Sample.janeToken
            (secretOrKey Sample.strategy) 100 <> None) as Hlive
    by (vm_compute; discriminate).
  split; [exact sample_jwt_returns_signed|].
  split; [reflexivity|].
  split; [exact Hu|].
  split; [reflexivity|].
  split; [reflexivity|].
  split; [reflexivity|].
  split; [exact Hlive|].
  apply (proj2 (proj2
    (login_then_authenticate Sample.bcrypt Sample.jwt sample_jwt_returns_signed
       Sample.withJane Sample.janeRow "secret12" 100 Sample.janeToken
       Sample.strategy Sample.withJane 100
       eq_refl Hu eq_refl eq_refl eq_refl eq_refl Hu Hlive))).
Defined.

(** C5.  What the code does where the claim expects the
    unauthenticated failure: when the token passes verification and no
    row has the [Id] its [sub] names, [authenticate] rejects with the
    plain [Error "Unauthorized"] that [validate] throws, which the
    exception filter answers with status 500, while a token that fails
    verification is rejected with [UnauthorizedException], status 401.
    Whatever the token and the outcome, the world after [authenticate]
    is the world before it. *)
Theorem authenticate_account_gone (jwt : JsonWebToken) :
  (forall strategy token now w payload,
      jwt_verify token (secretOrKey strategy) now = Some payload ->
      (forall u, In u (rows (users w)) -> Users.Id u <> Payload.sub payload) ->
      authenticate strategy token now w = (Rejected (Error "Unauthorized"), w)
      /\ httpStatus (Error "Unauthorized") = 500)
  /\
  (forall strategy token now w,
      jwt_verify token (secretOrKey strategy) now = None ->
      authenticate strategy token now w
      = (Rejected (UnauthorizedException "Unauthorized"), w)
      /\ httpStatus (UnauthorizedException "Unauthorized") = 401)
  /\
  (forall strategy token now w,
      snd (authenticate strategy token now w) = w).
Proof.
  split; [|split].
  - intros strategy token now w payload V Hgone.
    unfold authenticate. rewrite V, validate_spec.
    now rewrite (find_id_absent _ _ Hgone).
  - intros strategy token now w V. unfold authenticate. now rewrite V.
  - intros strategy token now w. unfold authenticate.
    destruct (jwt_verify token (secretOrKey strategy) now) as [p|].
    + now rewrite validate_spec.
    + reflexivity.
Qed.

Lemma authenticate_account_gone_witness :
  @jwt_verify Sample.jwt Sample.janeToken (secretOrKey Sample.strategy) 500
  = Some {| Payload.sub := 1; Payload.email := "jane@x.com" |}
  /\ (forall u, In u (rows (users Sample.afterJaneLeft)) -> Users.Id u <> 1)
  /\ @authenticate Sample.jwt Sample.strategy Sample.janeToken 500
       Sample.afterJaneLeft
     = (Rejected (Error "Unauthorized"), Sample.afterJaneLeft)
  /\ @jwt_verify Sample.jwt "forged" (secretOrKey Sample.strategy) 500 = None
  /\ @authenticate Sample.jwt Sample.strategy "forged" 500 Sample.afterJaneLeft
     = (Rejected (UnauthorizedException "Unauthorized"), Sample.afterJaneLeft).
Proof.
  assert (forall u, In u (rows (users Sample.afterJaneLeft)) ->
                    Users.Id u <> Payload.sub {| Payload.sub := 1;
                                                 Payload.email := "jane@x.com" |})
    as Hgone by (intros u [<-|[]]; cbn; discriminate).
  split; [reflexivity|].
  split; [exact Hgone|].
  split.
  - apply (proj1 (authenticate_account_gone Sample.jwt)
             Sample.strategy Sample.janeToken 500 Sample.afterJaneLeft
             {| Payload.sub := 1; Payload.email := "jane@x.com" |}
             eq_refl Hgone).
  - split; [reflexivity|].
    apply (proj1 (proj2 (authenticate_account_gone Sample.jwt))
             Sample.strategy "forged" 500 Sample.afterJaneLeft eq_refl).
Defined.

(** C9.  [validate] never reads the [email] of the payload: two payloads
    with the same [sub] give the same outcome, and the identity is made
    of the [Id], name, e-mail and role of the row the table has under
    that [sub]. *)
Theorem validate_ignores_email_claim :
  (forall sub email1 email2 w,
      validate {| Payload.sub := sub; Payload.email := email1 |} w
      = validate {| Payload.sub := sub; Payload.email := email2 |} w)
  /\
  (forall payload w u,
      fst (findUnique_Id (Payload.sub payload) w) = Resolved (Some u) ->
      validate payload w
      = (Resolved {| RequestUser.userId := Users.Id u;
                     RequestUser.name := Users.name u;
                     RequestUser.email := Users.email u;
                     RequestUser.role := Users.role u |}, w)).
Proof.
  split.
  - intros sub email1 email2 w. now rewrite !validate_spec.
  - intros payload w u F. unfold findUnique_Id in F. cbn [fst] in F.
    injection F as F. now rewrite validate_spec, F.
Qed.

Lemma validate_ignores_email_claim_witness :
  fst (findUnique_Id 1 Sample.withJane) = Resolved (Some Sample.janeRow)
  /\ validate {| Payload.sub := 1; Payload.email := "mallory@x.com" |} Sample.withJane
     = (Resolved (Sample.asRole user), Sample.withJane)
  /\ validate {| Payload.sub := 1; Payload.email := "mallory@x.com" |} Sample.withJane
     = validate {| Payload.sub := 1; Payload.email := "jane@x.com" |} Sample.withJane.
Proof.
  split; [reflexivity|].
  split.
  - apply (proj2 validate_ignores_email_claim
             {| Payload.sub := 1; Payload.email := "mallory@x.com" |}
             Sample.withJane Sample.janeRow eq_refl).
  - apply (proj1 validate_ignores_email_claim 1 "mallory@x.com" "jane@x.com"
             Sample.withJane).
Defined.

(** ** The roles guard *)

Lemma includes_In (xs : list string) (x : string) :
  includes xs x = true <-> In x xs.
Proof. unfold includes. apply existsb_string_In. Qed.

Lemma reflector_get_Roles (roles : list string) (h : Handler) :
  reflector_get "roles" (Roles roles h) = Some roles.
Proof. reflexivity. Qed.

(** C6, as stated, fails: a handler decorated with [@Roles()], the empty
    list of roles, admits nobody, not even an administrator. *)
Lemma canActivate_empty_roles_denies :
  canActivate {| getHandler := Roles [] Sample.bare;
                 request_user := Sample.asRole admin |} = false.
Proof. reflexivity. Qed.

(** C6, amended.  The guard admits a request exactly when the handler
    carries no roles metadata at all, or the role of the identity is a
    member of the list it carries; the test is plain membership, with no
    order between the roles.  So a handler decorated with the list
    [roles] admits exactly the identities whose role is in [roles]: with
    [@Roles("admin")] a user is refused and an administrator admitted,
    with [@Roles("user")] an administrator is refused, with the empty
    list everybody is refused, and without the decorator everybody is
    admitted. *)
Theorem canActivate_membership :
  (forall handler identity,
      canActivate {| getHandler := handler; request_user := identity |} = true
      <-> (reflector_get "roles" handler = None
           \/ exists roles,
                reflector_get "roles" handler = Some roles
                /\ In (Role_toString (RequestUser.role identity)) roles))
  /\ (forall roles handler identity,
         canActivate {| getHandler := Roles roles handler;
                        request_user := identity |} = true
         <-> In (Role_toString (RequestUser.role identity)) roles)
  /\ canActivate {| getHandler := Roles ["admin"] Sample.bare;
                    request_user := Sample.asRole user |} = false
  /\ canActivate {| getHandler := Roles ["admin"] Sample.bare;
                    request_user := Sample.asRole admin |} = true
  /\ canActivate {| getHandler := Roles ["user"] Sample.bare;
                    request_user := Sample.asRole admin |} = false
  /\ (forall handler identity,
         canActivate {| getHandler := Roles [] handler;
                        request_user := identity |} = false)
  /\ (forall identity,
         canActivate {| getHandler := Sample.bare;
                        request_user := identity |} = true).
Proof.
  split; [|split; [|repeat split]].
  - intros handler identity. unfold canActivate. cbn [getHandler request_user].
    destruct (reflector_get "roles" handler) as [roles|].
    + rewrite includes_In. split.
      * intros H. right. exists roles. auto.
      * intros [H|[roles' [E H]]]; [discriminate | congruence].
    + split; auto.
  - intros roles handler identity. unfold canActivate.
    cbn [getHandler request_user]. rewrite reflector_get_Roles.
    apply includes_In.
Qed.

(** ** The secret *)




(** ** The role of a registered user *)

(** C8.  Whatever the input and the outcome, every row of the table
    after [register] is a row of the table before it or has role [user],
    and the rows with role [admin] are the same before and after; when
    [register] resolves, the table gained the one row the answer names,
    with role [user]. *)
Theorem register_role_is_user (bcrypt : Bcrypt) (w : World)
  (dto : RegisterDto.t) (drawn : string) (now : Z) :
  (forall u,
      In u (rows (users (snd (register dto drawn now w)))) ->
      In u (rows (users w)) \/ Users.role u = user)
  /\ filter isAdmin (rows (users (snd (register dto drawn now w))))
     = filter isAdmin (rows (users w))
  /\ (forall answer,
         fst (register dto drawn now w) = Resolved answer ->
         exists u : Users.t,
           rows (users (snd (register dto drawn now w)))
           = (rows (users w) ++ [u])%list
           /\ Users.Id u = RegisteredUser.id (RegisterResponse.user answer)
           /\ Users.email u = RegisteredUser.email (RegisterResponse.user answer)
           /\ Users.role u = user).
Proof.
  destruct (register_cases bcrypt w dto drawn now) as [H | [[H F] | [H F]]].
  - rewrite (register_existing bcrypt w dto drawn now H). cbn [fst snd].
    split; [auto | split; [reflexivity | discriminate]].
  - rewrite (register_overlong bcrypt w dto drawn now H F). cbn [fst snd].
    split; [auto | split; [reflexivity | discriminate]].
  - rewrite (register_fresh bcrypt w dto drawn now H F). cbn [fst snd users rows].
    split; [|split].
    + intros u I. apply in_app_or in I. destruct I as [I|[<-|[]]]; auto.
    + rewrite filter_app. cbn. now rewrite app_nil_r.
    + intros answer E. injection E as <-. eexists. split; [reflexivity|].
      cbn. auto.
Qed.

Lemma register_role_is_user_witness :
  fst (@register Sample.bcrypt Sample.jane "salt" 100 Sample.start)
  = Resolved {| RegisterResponse.success := true;
                RegisterResponse.message := "User registered successfully";
                RegisterResponse.user := {| RegisteredUser.id := 1;
                                 RegisteredUser.email := "jane@x.com" |} |}
  /\ exists u,
       rows (users (snd (@register Sample.bcrypt Sample.jane "salt" 100
                           Sample.start))) = [u]
       /\ Users.role u = user.
Proof.
  split; [reflexivity|].
  destruct (proj2 (proj2 (register_role_is_user Sample.bcrypt Sample.start
                            Sample.jane "salt" 100)) _ eq_refl)
    as [u [E [_ [_ R]]]].
  exists u. split; [exact E | exact R].
Defined.

(** ** The class of the failures *)

Lemma sameClass_message (e1 e2 : Exception) :
  sameClass e1 e2 = true -> errorMessage e1 = errorMessage e2 -> e1 = e2.
Proof.
  destruct e1, e2; cbn; intros C M; try discriminate; now subst.
Qed.

(** C10.  The rejection of [register] on an e-mail that a row has is
    [BadRequestException "User already exists"], the rejection of
    [login] on an unknown e-mail or on a password the stored hash
    refuses is [BadRequestException "Invalid credentials"]: the same
    class, status 400 for both, different messages, and nothing but the
    message tells two exceptions of one class apart.  No rejection of
    [login] has status 401. *)
Theorem duplicate_and_invalid_credentials_are_bad_requests
  (bcrypt : Bcrypt) (jwt : JsonWebToken) :
  (forall w dto drawn now,
      In (RegisterDto.email dto) (emails (users w)) ->
      fst (register dto drawn now w)
      = Rejected (BadRequestException "User already exists"))
  /\ (forall w dto now,
         ~ In (LoginDto.email dto) (emails (users w)) ->
         fst (login dto now w)
         = Rejected (BadRequestException "Invalid credentials"))
  /\ (forall w dto now u,
         fst (checkExistingUser (LoginDto.email dto) w) = Resolved (Some u) ->
         validatePassword (LoginDto.password dto) (Users.password u) = false ->
         fst (login dto now w)
         = Rejected (BadRequestException "Invalid credentials"))
  /\ sameClass (BadRequestException "User already exists")
               (BadRequestException "Invalid credentials") = true
  /\ httpStatus (BadRequestException "User already exists") = 400
  /\ httpStatus (BadRequestException "Invalid credentials") = 400
  /\ errorMessage (BadRequestException "User already exists")
     <> errorMessage (BadRequestException "Invalid credentials")
  /\ (forall e1 e2,
         sameClass e1 e2 = true -> errorMessage e1 = errorMessage e2 -> e1 = e2)
  /\ (forall w dto now e,
         fst (login dto now w) = Rejected e -> httpStatus e <> 401).
Proof.
  split; [|split; [|split; [|repeat split]]].
  - intros w dto drawn now H. now rewrite register_existing.
  - intros w dto now H. now rewrite login_unknown_email.
  - intros w dto now u F V.
    unfold checkExistingUser, findUnique_email in F. cbn [fst] in F.
    injection F as F. now rewrite (login_wrong_password bcrypt jwt w dto now u F V).
  - cbn. discriminate.
  - exact sameClass_message.
  - intros w dto now e.
    destruct (find (hasEmail (LoginDto.email dto)) (rows (users w))) as [u|] eqn:F.
    + destruct (validatePassword (LoginDto.password dto) (Users.password u)) eqn:V.
      * rewrite (login_right_password bcrypt jwt w dto now u F V). cbn [fst].
        destruct (jwt_signAsync _ _ now); [|discriminate].
        intros E. injection E as <-. cbn. discriminate.
      * rewrite (login_wrong_password bcrypt jwt w dto now u F V). cbn [fst].
        intros E. injection E as <-. cbn. discriminate.
    + apply find_email_None_absent in F.
      rewrite (login_unknown_email bcrypt jwt w dto now F). cbn [fst].
      intros E. injection E as <-. cbn. discriminate.
Qed.

Lemma duplicate_and_invalid_credentials_are_bad_requests_witness :
  In (RegisterDto.email Sample.jane) (emails (users Sample.withJane))
  /\ fst (@register Sample.bcrypt Sample.jane "pepper" 200 Sample.withJane)
     = Rejected (BadRequestException "User already exists")
  /\ fst (@login Sample.bcrypt Sample.jwt Sample.janeWrong 200 Sample.withJane)
     = Rejected (BadRequestException "Invalid credentials")
  /\ httpStatus (BadRequestException "Invalid credentials") <> 401.
Proof.
  assert (In (RegisterDto.email Sample.jane) (emails (users Sample.withJane)))
    as Hin by (simpl; auto).
  pose proof (duplicate_and_invalid_credentials_are_bad_requests
                Sample.bcrypt Sample.jwt) as [Hreg [_ [Hwrong [_ [_ [_ [_ [_ H401]]]]]]]].
  split; [exact Hin|].
  split; [exact (Hreg Sample.withJane Sample.jane "pepper" 200 Hin)|].
  split; [exact (Hwrong Sample.withJane Sample.janeWrong 200 Sample.janeRow
                   eq_refl eq_refl)|].
  exact (H401 Sample.withJane Sample.janeWrong 200 _ eq_refl).
Defined.

(** ** The constraints of the schema are kept *)

Lemma distinct_snoc_string (l : list string) (x : string) :
  distinct String.eqb l = true -> ~ In x l ->
  distinct String.eqb (l ++ [x]) = true.
Proof.
  induction l as [|a l IH]; cbn [distinct app]; intros D N; [reflexivity|].
  apply andb_true_iff in D. destruct D as [Na D].
  apply andb_true_iff. split.
  - apply negb_true_iff in Na. apply negb_true_iff.
    rewrite existsb_app, Na. cbn.
    rewrite orb_false_r. apply String.eqb_neq.
    intros ->. apply N. now left.
  - apply IH; [exact D|]. intros I. apply N. now right.
Qed.

Lemma distinct_snoc_Z (l : list Z) (x : Z) :
  distinct Z.eqb l = true -> ~ In x l ->
  distinct Z.eqb (l ++ [x]) = true.
Proof.
  induction l as [|a l IH]; cbn [distinct app]; intros D N; [reflexivity|].
  apply andb_true_iff in D. destruct D as [Na D].
  apply andb_true_iff. split.
  - apply negb_true_iff in Na. apply negb_true_iff.
    rewrite existsb_app, Na. cbn.
    rewrite orb_false_r. apply Z.eqb_neq.
    intros ->. apply N. now left.
  - apply IH; [exact D|]. intros I. apply N. now right.
Qed.

Lemma tableOk_empty : tableOk emptyTable = true.
Proof. reflexivity. Qed.

(** [register] keeps the unique indexes and the counter ahead of every
    [Id], so every table reached from the empty one by registrations
    satisfies [tableOk]. *)
Lemma register_keeps_tableOk (bcrypt : Bcrypt) (w : World)
  (dto : RegisterDto.t) (drawn : string) (now : Z) :
  tableOk (users w) = true ->
  tableOk (users (snd (register dto drawn now w))) = true.
Proof.
  intros Hok.
  destruct (register_cases bcrypt w dto drawn now) as [H | [[H F] | [H F]]].
  - now rewrite (register_existing bcrypt w dto drawn now H).
  - now rewrite (register_overlong bcrypt w dto drawn now H F).
  - rewrite (register_fresh bcrypt w dto drawn now H F). cbn [snd users].
    unfold tableOk in *. unfold emails, ids in *. cbn [rows autoIncrement].
    apply andb_true_iff in Hok. destruct Hok as [Hok Hlt].
    apply andb_true_iff in Hok. destruct Hok as [He Hi].
    rewrite !map_app. cbn [map Users.email Users.Id].
    rewrite forallb_forall in Hlt.
    repeat (apply andb_true_iff; split).
    + now apply distinct_snoc_string.
    + apply distinct_snoc_Z; [exact Hi|].
      intros I. apply Hlt in I. apply Z.ltb_lt in I. lia.
    + rewrite forallb_app. apply andb_true_iff. split.
      * apply forallb_forall. intros i I. apply Hlt in I.
        apply Z.ltb_lt in I. apply Z.ltb_lt. lia.
      * cbn. rewrite andb_true_r. apply Z.ltb_lt. lia.
Qed.

(** [login] only reads. *)
Lemma login_reads_only (bcrypt : Bcrypt) (jwt : JsonWebToken) (w : World)
  (dto : LoginDto.t) (now : Z) :
  snd (login dto now w) = w.
Proof.
  destruct (find (hasEmail (LoginDto.email dto)) (rows (users w))) as [u|] eqn:F.
  - destruct (validatePassword (LoginDto.password dto) (Users.password u)) eqn:V.
    + now rewrite (login_right_password bcrypt jwt w dto now u F V).
    + now rewrite (login_wrong_password bcrypt jwt w dto now u F V).
  - apply find_email_None_absent in F.
    now rewrite (login_unknown_email bcrypt jwt w dto now F).
Qed.

(** ** Runs: what every sequence of calls keeps *)

Lemma authenticate_reads_only (jwt : JsonWebToken) (strategy : JwtStrategy)
  (token : string) (now : Z) (w : World) :
  snd (authenticate strategy token now w) = w.
Proof.
  unfold authenticate.
  destruct (jwt_verify token (secretOrKey strategy) now) as [p|];
    [now rewrite validate_spec | reflexivity].
Qed.

(** One call either leaves the world as it is or appends one row, with
    role [user] and the [Id] the counter shows, and advances the
    counter. *)
Lemma serve_step (bcrypt : Bcrypt) (jwt : JsonWebToken) (r : Request) (w : World) :
  serve r w = w
  \/ exists u,
       serve r w
       = {| users := {| rows := rows (users w) ++ [u];
                        autoIncrement := autoIncrement (users w) + 1 |};
            config := config w |}
       /\ Users.Id u = autoIncrement (users w)
       /\ Users.role u = user
       /\ ~ In (Users.email u) (emails (users w)).
Proof.
  destruct r as [dto drawn now | dto now | strategy token now]; cbn [serve].
  - destruct (register_cases bcrypt w dto drawn now) as [H | [[H F] | [H F]]].
    + left. now rewrite (register_existing bcrypt w dto drawn now H).
    + left. now rewrite (register_overlong bcrypt w dto drawn now H F).
    + right. rewrite (register_fresh bcrypt w dto drawn now H F). cbn [snd].
      eexists. split; [reflexivity|]. cbn. auto.
  - left. apply login_reads_only.
  - left. apply authenticate_reads_only.
Qed.

Lemma tableOk_counter_fresh (t : UsersTable) (u : Users.t) :
  tableOk t = true -> In u (rows t) -> Users.Id u <> autoIncrement t.
Proof.
  unfold tableOk. intros H I.
  apply andb_true_iff in H. destruct H as [_ H].
  rewrite forallb_forall in H.
  assert (In (Users.Id u) (ids t)) as J by (unfold ids; now apply in_map).
  apply H in J. apply Z.ltb_lt in J. lia.
Qed.

Lemma tableOk_snoc (t : UsersTable) (u : Users.t) :
  tableOk t = true ->
  Users.Id u = autoIncrement t ->
  ~ In (Users.email u) (emails t) ->
  tableOk {| rows := rows t ++ [u]; autoIncrement := autoIncrement t + 1 |} = true.
Proof.
  intros Hok Hid Hmail.
  unfold tableOk in *. unfold emails, ids in *. cbn [rows autoIncrement].
  apply andb_true_iff in Hok. destruct Hok as [Hok Hlt].
  apply andb_true_iff in Hok. destruct Hok as [He Hi].
  rewrite !map_app. cbn [map].
  rewrite forallb_forall in Hlt.
  repeat (apply andb_true_iff; split).
  - now apply distinct_snoc_string.
  - apply distinct_snoc_Z; [exact Hi|].
    intros I. rewrite Hid in I. apply Hlt in I. apply Z.ltb_lt in I. lia.
  - rewrite forallb_app. apply andb_true_iff. split.
    + apply forallb_forall. intros i I. apply Hlt in I.
      apply Z.ltb_lt in I. apply Z.ltb_lt. lia.
    + cbn. rewrite andb_true_r. apply Z.ltb_lt. lia.
Qed.

(** X1.  Starting from a table that respects the constraints of the
    schema, any sequence of calls of [register], [login] and
    [authenticate] ends in a table that respects them; the
    configuration is the one it started with, the rows it started with
    are still there, in place, followed by the rows that were added, all
    of role [user]; so the rows of role [admin] are the same. *)
Theorem run_keeps_constraints (bcrypt : Bcrypt) (jwt : JsonWebToken)
  (rs : list Request) (w : World)
  (Hok : tableOk (users w) = true) :
  tableOk (users (run rs w)) = true
  /\ config (run rs w) = config w
  /\ (exists added : list Users.t,
        rows (users (run rs w)) = (rows (users w) ++ added)%list
        /\ Forall (fun u => Users.role u = user) added)
  /\ filter isAdmin (rows (users (run rs w))) = filter isAdmin (rows (users w)).
Proof.
  revert w Hok. induction rs as [|r rs IH]; intros w Hok; cbn [run].
  - split; [exact Hok | split; [reflexivity | split; [|reflexivity]]].
    exists []. split; [now rewrite app_nil_r | constructor].
  - destruct (serve_step bcrypt jwt r w) as [E | [u [E [Hid [Hrole Hmail]]]]].
    + rewrite E. now apply IH.
    + rewrite E.
      destruct (IH {| users := {| rows := rows (users w) ++ [u];
                                  autoIncrement := autoIncrement (users w) + 1 |};
                      config := config w |})
        as [Hok' [Hcfg [[added [Hrows Hadded]] Hadmin]]].
      { cbn [users]. now apply tableOk_snoc. }
      cbn [users rows config] in *.
      split; [exact Hok' | split; [exact Hcfg | split]].
      * exists (u :: added). split.
        -- rewrite Hrows, <- app_assoc. reflexivity.
        -- constructor; assumption.
      * rewrite Hadmin, filter_app. cbn [filter]. unfold isAdmin at 2.
        rewrite Hrole. cbn. now rewrite app_nil_r.
Qed.

Lemma run_keeps_constraints_witness :
  tableOk (users Sample.start) = true
  /\ tableOk (users (@run Sample.bcrypt Sample.jwt
                       [CallRegister Sample.jane "salt" 100;
                        CallLogin Sample.janeLogin 101;
                        CallRegister Sample.jane "pepper" 102]
                       Sample.start)) = true
  /\ config (@run Sample.bcrypt Sample.jwt
               [CallRegister Sample.jane "salt" 100;
                CallLogin Sample.janeLogin 101;
                CallRegister Sample.jane "pepper" 102]
               Sample.start) = Sample.env.
Proof.
  split; [reflexivity|].
  destruct (run_keeps_constraints Sample.bcrypt Sample.jwt
              [CallRegister Sample.jane "salt" 100;
               CallLogin Sample.janeLogin 101;
               CallRegister Sample.jane "pepper" 102]
              Sample.start eq_refl) as [Hok [Hcfg _]].
  split; [exact Hok | exact Hcfg].
Defined.

(** ** Runs with requests in between *)

Lemma register_is_lookup_then_resume (bcrypt : Bcrypt) (dto : RegisterDto.t)
  (drawn : string) (now : Z) (w : World) :
  register dto drawn now w
  = register_resume (find (hasEmail (RegisterDto.email dto)) (rows (users w)))
      dto drawn now w.
Proof.
  unfold register, register_resume, bind, checkExistingUser, findUnique_email.
  reflexivity.
Qed.

(** The paths of the second part of [register], as equations. *)
Lemma register_resume_paths (bcrypt : Bcrypt) (existingUser : option Users.t)
  (dto : RegisterDto.t) (drawn : string) (now : Z) (w : World) :
  (existingUser <> None
   /\ register_resume existingUser dto drawn now w
      = (Rejected (BadRequestException "User already exists"), w))
  \/ (existingUser = None
      /\ registerFits dto drawn = false
      /\ register_resume existingUser dto drawn now w
         = (Rejected (PrismaClientKnownRequestError "P2000"), w))
  \/ (existingUser = None
      /\ registerFits dto drawn = true
      /\ In (RegisterDto.email dto) (emails (users w))
      /\ register_resume existingUser dto drawn now w
         = (Rejected (PrismaClientKnownRequestError "P2002"),
            {| users := {| rows := rows (users w);
                           autoIncrement := autoIncrement (users w) + 1 |};
               config := config w |}))
  \/ (existingUser = None
      /\ registerFits dto drawn = true
      /\ ~ In (RegisterDto.email dto) (emails (users w))
      /\ exists u,
           register_resume existingUser dto drawn now w
           = (Resolved {| RegisterResponse.success := true;
                          RegisterResponse.message := "User registered successfully";
                          RegisterResponse.user :=
                            {| RegisteredUser.id := Users.Id u;
                               RegisteredUser.email := Users.email u |} |},
              {| users := {| rows := rows (users w) ++ [u];
                             autoIncrement := autoIncrement (users w) + 1 |};
                 config := config w |})
           /\ Users.Id u = autoIncrement (users w)
           /\ Users.email u = RegisterDto.email dto
           /\ Users.role u = user).
Proof.
  destruct existingUser as [found|].
  - left. split; [discriminate | reflexivity].
  - right. unfold register_resume, bind, create.
    rewrite fitsColumns_registerFits.
    destruct (registerFits dto drawn); cbn [negb].
    + right. cbn [UsersCreateInput.email].
      destruct (email_absent_dec (RegisterDto.email dto) (users w)) as [H|H].
      * left.
        assert (existsb (hasEmail (RegisterDto.email dto)) (rows (users w)) = true)
          as X.
        { apply existsb_exists.
          destruct (find_email_present _ _ H) as [u [_ [I E]]].
          exists u. split; [exact I | now apply hasEmail_true]. }
        rewrite X. auto.
      * right. rewrite (existsb_email_absent _ _ H).
        split; [reflexivity | split; [reflexivity | split; [exact H|]]].
        eexists. split; [reflexivity|]. cbn. auto.
    + left. auto.
Qed.

Lemma tableOk_bump (t : UsersTable) :
  tableOk t = true ->
  tableOk {| rows := rows t; autoIncrement := autoIncrement t + 1 |} = true.
Proof.
  unfold tableOk, emails, ids. cbn [rows autoIncrement]. intros H.
  apply andb_true_iff in H. destruct H as [H L]. rewrite H. cbn [andb].
  rewrite forallb_forall in *. intros i I. apply L in I.
  apply Z.ltb_lt in I. apply Z.ltb_lt. lia.
Qed.

Lemma tableOk_below_counter (t : UsersTable) (i : Z) :
  tableOk t = true -> In i (ids t) -> i < autoIncrement t.
Proof.
  unfold tableOk. intros H I.
  apply andb_true_iff in H. destruct H as [_ H].
  rewrite forallb_forall in H. apply H in I. now apply Z.ltb_lt.
Qed.

Lemma ascending_snoc (l : list Z) (x : Z) :
  ascending l = true -> (forall i, In i l -> i < x) ->
  ascending (l ++ [x]) = true.
Proof.
  induction l as [|a l IH]; cbn [ascending app]; intros A B; [reflexivity|].
  apply andb_true_iff in A. destruct A as [A1 A2].
  apply andb_true_iff. split.
  - rewrite forallb_app, A1. cbn. rewrite andb_true_r.
    apply Z.ltb_lt. apply B. now left.
  - apply IH; [exact A2|]. intros i I. apply B. now right.
Qed.

(** What one step can do to the world: nothing, use up a value of the
    counter, or append one row with the [Id] the counter shows, role
    [user] and an e-mail no row had. *)
Lemma serveStep_step (bcrypt : Bcrypt) (jwt : JsonWebToken) (s : Step) (w : World) :
  serveStep s w = w
  \/ serveStep s w
     = {| users := {| rows := rows (users w);
                      autoIncrement := autoIncrement (users w) + 1 |};
          config := config w |}
  \/ exists u,
       serveStep s w
       = {| users := {| rows := rows (users w) ++ [u];
                        autoIncrement := autoIncrement (users w) + 1 |};
            config := config w |}
       /\ Users.Id u = autoIncrement (users w)
       /\ Users.role u = user
       /\ ~ In (Users.email u) (emails (users w)).
Proof.
  destruct s as [r | existingUser dto drawn now]; cbn [serveStep].
  - destruct (serve_step bcrypt jwt r w) as [E | E]; [now left | right; now right].
  - destruct (register_resume_paths bcrypt existingUser dto drawn now w)
      as [[_ E] | [[_ [_ E]] | [[_ [_ [_ E]]] | [_ [_ [H [u [E [I [M R]]]]]]]]]];
      rewrite E; cbn [snd]; [now left | now left | right; now left |].
    right. right. exists u. rewrite M. auto.
Qed.

(** X2.  From the empty table, whatever calls are served and however
    the registrations overlap with other requests, the table respects
    the constraints of the schema, the [Id]s of its rows are positive
    and increase in the order of insertion (with gaps where an insert
    failed on the unique index), every row has role [user], and the
    configuration is the one the run started with: no run makes an
    administrator. *)
Theorem overlapping_runs_from_empty (bcrypt : Bcrypt) (jwt : JsonWebToken)
  (steps : list Step) (cfg : ConfigService) :
  tableOk (users (runSteps steps {| users := emptyTable; config := cfg |})) = true
  /\ ascending (ids (users (runSteps steps {| users := emptyTable;
                                              config := cfg |}))) = true
  /\ Forall (fun i => 1 <= i)
       (ids (users (runSteps steps {| users := emptyTable; config := cfg |})))
  /\ Forall (fun u => Users.role u = user)
       (rows (users (runSteps steps {| users := emptyTable; config := cfg |})))
  /\ config (runSteps steps {| users := emptyTable; config := cfg |}) = cfg.
Proof.
  assert (forall steps w,
             tableOk (users w) = true ->
             ascending (ids (users w)) = true ->
             Forall (fun i => 1 <= i) (ids (users w)) ->
             1 <= autoIncrement (users w) ->
             Forall (fun u => Users.role u = user) (rows (users w)) ->
             tableOk (users (runSteps steps w)) = true
             /\ ascending (ids (users (runSteps steps w))) = true
             /\ Forall (fun i => 1 <= i) (ids (users (runSteps steps w)))
             /\ Forall (fun u => Users.role u = user)
                  (rows (users (runSteps steps w)))
             /\ config (runSteps steps w) = config w)
    as General.
  { clear steps. induction steps as [|s steps IH];
      intros w Hok Hasc Hpos Hctr Hroles; cbn [runSteps].
    - auto.
    - destruct (serveStep_step bcrypt jwt s w)
        as [E | [E | [u [E [Hid [Hrole Hmail]]]]]]; rewrite E.
      + now apply IH.
      + destruct (IH {| users := {| rows := rows (users w);
                                    autoIncrement := autoIncrement (users w) + 1 |};
                        config := config w |}) as [A [B [C [D F]]]];
          cbn [users rows autoIncrement config];
          try assumption; [now apply tableOk_bump | lia | auto].
      + destruct (IH {| users := {| rows := rows (users w) ++ [u];
                                    autoIncrement := autoIncrement (users w) + 1 |};
                        config := config w |}) as [A [B [C [D F]]]];
          cbn [users rows autoIncrement config].
        * now apply tableOk_snoc.
        * unfold ids. cbn [rows]. rewrite map_app. cbn [map].
          apply ascending_snoc; [exact Hasc|].
          intros i I. rewrite Hid. now apply tableOk_below_counter.
        * unfold ids. cbn [rows]. rewrite map_app. apply Forall_app.
          split; [exact Hpos|]. constructor; [lia | constructor].
        * lia.
        * apply Forall_app. split; [exact Hroles|]. now constructor.
        * auto. }
  apply General; cbn [users rows autoIncrement emptyTable ids map];
    try reflexivity; try constructor; lia.
Qed.

(** ** Registration followed by the other operations *)

Lemma find_email_snoc_new (rs : list Users.t) (u : Users.t) :
  ~ In (Users.email u) (map Users.email rs) ->
  find (hasEmail (Users.email u)) (rs ++ [u]) = Some u.
Proof.
  intros H. rewrite find_snoc, (find_email_absent _ _ H).
  unfold hasEmail. now rewrite String.eqb_refl.
Qed.

Lemma find_id_snoc_new (rs : list Users.t) (u : Users.t) :
  (forall v, In v rs -> Users.Id v <> Users.Id u) ->
  find (hasId (Users.Id u)) (rs ++ [u]) = Some u.
Proof.
  intros H. rewrite find_snoc, (find_id_absent _ _ H).
  unfold hasId. now rewrite Z.eqb_refl.
Qed.

Lemma find_snoc_other {A : Type} (f : A -> bool) (xs : list A) (x : A) :
  f x = false -> find f (xs ++ [x]) = find f xs.
Proof.
  intros H. rewrite find_snoc, H. now destruct (find f xs).
Qed.

(** The login that follows a registration that inserted its row, as an
    equation. *)
Lemma login_after_register
  (bcrypt : Bcrypt) (jwt : JsonWebToken)
  (Hbcrypt : bcrypt_accepts_own_hash bcrypt)
  (w : World) (dto : RegisterDto.t) (drawn : string) (now now' : Z)
  (Hfresh : ~ In (RegisterDto.email dto) (emails (users w)))
  (Hfits : registerFits dto drawn = true) :
  login {| LoginDto.email := RegisterDto.email dto;
           LoginDto.password := RegisterDto.password dto |} now'
        (snd (register dto drawn now w))
  = (match jwt_signAsync {| Payload.sub := autoIncrement (users w);
                            Payload.email := RegisterDto.email dto |}
                         {| expiresIn := get (config w) "JWT_EXPIRES_IN";
                            secret := get (config w) "JWT_SECRET" |} now' with
     | inr token => Resolved {| access_token := token |}
     | inl msg => Rejected (Error msg)
     end, snd (register dto drawn now w)).
Proof.
  rewrite (register_fresh bcrypt w dto drawn now Hfresh Hfits). cbn [snd].
  match goal with
  | |- login ?d now' ?w1 = _ =>
      rewrite (login_right_password bcrypt jwt w1 d now'
                 {| Users.Id := autoIncrement (users w);
                    Users.name := RegisterDto.name dto;
                    Users.email := RegisterDto.email dto;
                    Users.password := bcrypt_hash (RegisterDto.password dto) 10 drawn;
                    Users.phone_number := None;
                    Users.role := user;
                    Users.createdAt := now;
                    Users.updatedAt := now |})
  end.
  - reflexivity.
  - cbn [users rows LoginDto.email].
    apply (find_email_snoc_new (rows (users w))
             {| Users.Id := autoIncrement (users w);
                Users.name := RegisterDto.name dto;
                Users.email := RegisterDto.email dto;
                Users.password := bcrypt_hash (RegisterDto.password dto) 10 drawn;
                Users.phone_number := None;
                Users.role := user;
                Users.createdAt := now;
                Users.updatedAt := now |} Hfresh).
  - cbn [LoginDto.password Users.password]. apply Hbcrypt.
Qed.

(** X3.  When a registration has resolved, a login with the same e-mail
    and password passes both credential checks, under bcrypt's
    contract: its outcome is the outcome of signing the payload made of
    the [id] and the e-mail of the acknowledgment, with the options the
    configuration holds, and it leaves the world as the registration
    left it. *)
Theorem register_then_login
  (bcrypt : Bcrypt) (jwt : JsonWebToken)
  (Hbcrypt : bcrypt_accepts_own_hash bcrypt)
  (w : World) (dto : RegisterDto.t) (drawn : string) (now now' : Z)
  (answer : RegisterResponse.t)
  (Hresolved : fst (register dto drawn now w) = Resolved answer) :
  login {| LoginDto.email := RegisterDto.email dto;
           LoginDto.password := RegisterDto.password dto |} now'
        (snd (register dto drawn now w))
  = (match jwt_signAsync
             {| Payload.sub := RegisteredUser.id (RegisterResponse.user answer);
                Payload.email := RegisteredUser.email (RegisterResponse.user answer) |}
             {| expiresIn := get (config w) "JWT_EXPIRES_IN";
                secret := get (config w) "JWT_SECRET" |} now' with
     | inr token => Resolved {| access_token := token |}
     | inl msg => Rejected (Error msg)
     end, snd (register dto drawn now w)).
Proof.
  destruct (register_cases bcrypt w dto drawn now) as [H | [[H F] | [H F]]].
  - rewrite (register_existing bcrypt w dto drawn now H) in Hresolved.
    discriminate.
  - rewrite (register_overlong bcrypt w dto drawn now H F) in Hresolved.
    discriminate.
  - rewrite (login_after_register bcrypt jwt Hbcrypt w dto drawn now now' H F).
    rewrite (register_fresh bcrypt w dto drawn now H F) in Hresolved.
    cbn [fst] in Hresolved. injection Hresolved as <-. reflexivity.
Qed.

Lemma register_then_login_witness :
  bcrypt_accepts_own_hash Sample.bcrypt
  /\ fst (@register Sample.bcrypt Sample.jane "salt" 100 Sample.start)
     = Resolved {| RegisterResponse.success := true;
                   RegisterResponse.message := "User registered successfully";
                   RegisterResponse.user :=
                     {| RegisteredUser.id := 1;
                        RegisteredUser.email := "jane@x.com" |} |}
  /\ @login Sample.bcrypt Sample.jwt Sample.janeLogin 150
       (snd (@register Sample.bcrypt Sample.jane "salt" 100 Sample.start))
     = (Resolved {| access_token := Sample.janeToken |}, Sample.withJane).
Proof.
  split; [exact sample_bcrypt_accepts|].
  split; [reflexivity|].
  apply (register_then_login Sample.bcrypt Sample.jwt sample_bcrypt_accepts
           Sample.start Sample.jane "salt" 100 150 _ eq_refl).
Defined.





(** X6.  A registration does not disturb the others: whatever its
    outcome, a login under another e-mail has the outcome it had
    before, and so has [validate] on every payload whose [sub] is not
    the value of the counter. *)
Theorem register_leaves_others
  (bcrypt : Bcrypt) (jwt : JsonWebToken)
  (w : World) (dto : RegisterDto.t) (drawn : string) (now : Z) :
  (forall other now',
      LoginDto.email other <> RegisterDto.email dto ->
      fst (login other now' (snd (register dto drawn now w)))
      = fst (login other now' w))
  /\ (forall payload,
         Payload.sub payload <> autoIncrement (users w) ->
         fst (validate payload (snd (register dto drawn now w)))
         = fst (validate payload w)).
Proof.
  destruct (register_cases bcrypt w dto drawn now) as [H | [[H Fit] | [H Fit]]].
  - rewrite (register_existing bcrypt w dto drawn now H). cbn [snd]. auto.
  - rewrite (register_overlong bcrypt w dto drawn now H Fit). cbn [snd]. auto.
  - rewrite (register_fresh bcrypt w dto drawn now H Fit). cbn [snd]. split.
    + intros other now' Hother.
      match goal with
      | |- fst (login other now' ?w1) = _ =>
          assert (find (hasEmail (LoginDto.email other)) (rows (users w1))
                  = find (hasEmail (LoginDto.email other)) (rows (users w)))
            as F1
            by (cbn [users rows]; apply find_snoc_other; unfold hasEmail;
                cbn [Users.email]; apply String.eqb_neq; congruence);
          set (w1' := w1) in *
      end.
      destruct (find (hasEmail (LoginDto.email other)) (rows (users w)))
        as [u|] eqn:F.
      * destruct (validatePassword (LoginDto.password other) (Users.password u))
          eqn:V.
        -- rewrite (login_right_password bcrypt jwt w1' other now' u F1 V).
           now rewrite (login_right_password bcrypt jwt w other now' u F V).
        -- rewrite (login_wrong_password bcrypt jwt w1' other now' u F1 V).
           now rewrite (login_wrong_password bcrypt jwt w other now' u F V).
      * apply find_email_None_absent in F1. apply find_email_None_absent in F.
        rewrite (login_unknown_email bcrypt jwt w1' other now' F1).
        now rewrite (login_unknown_email bcrypt jwt w other now' F).
    + intros payload Hsub. rewrite !validate_spec. cbn [fst users rows].
      rewrite find_snoc_other; [reflexivity|].
      unfold hasId. cbn [Users.Id]. apply Z.eqb_neq. congruence.
Qed.

Lemma register_leaves_others_witness :
  LoginDto.email Sample.nobody <> RegisterDto.email Sample.jane
  /\ fst (@login Sample.bcrypt Sample.jwt Sample.nobody 150
            (snd (@register Sample.bcrypt Sample.jane "salt" 100 Sample.start)))
     = fst (@login Sample.bcrypt Sample.jwt Sample.nobody 150 Sample.start).
Proof.
  assert (LoginDto.email Sample.nobody <> RegisterDto.email Sample.jane)
    as Hother by (cbn; discriminate).
  split; [exact Hother|].
  apply (proj1 (register_leaves_others Sample.bcrypt Sample.jwt
                  Sample.start Sample.jane "salt" 100)
           Sample.nobody 150 Hother).
Defined.

(** ** Validation of the DTOs *)



(** ** The outcomes of login, register and authenticate *)

(** X8.  [login] resolves to a token exactly when the lookup by the
    e-mail finds a row, the stored hash of that row accepts the
    password, and signing the payload made of the [Id] and e-mail of
    the row, with the expiry and secret the configuration holds, gives
    that token. *)
Theorem login_resolves_iff
  (bcrypt : Bcrypt) (jwt : JsonWebToken)
  (w : World) (dto : LoginDto.t) (now : Z) (token : string) :
  fst (login dto now w) = Resolved {| access_token := token |}
  <-> exists u : Users.t,
        fst (checkExistingUser (LoginDto.email dto) w) = Resolved (Some u)
        /\ Users.email u = LoginDto.email dto
        /\ validatePassword (LoginDto.password dto) (Users.password u) = true
        /\ jwt_signAsync {| Payload.sub := Users.Id u;
                            Payload.email := Users.email u |}
                         {| expiresIn := get (config w) "JWT_EXPIRES_IN";
                            secret := get (config w) "JWT_SECRET" |} now
           = inr token.
Proof.
  unfold checkExistingUser, findUnique_email. cbn [fst].
  destruct (find (hasEmail (LoginDto.email dto)) (rows (users w))) as [u|] eqn:F.
  - destruct (validatePassword (LoginDto.password dto) (Users.password u)) eqn:V.
    + rewrite (login_right_password bcrypt jwt w dto now u F V). cbn [fst].
      split.
      * intros E. exists u. split; [reflexivity|].
        split; [apply find_some in F; now apply hasEmail_true|].
        split; [exact V|].
        destruct (jwt_signAsync _ _ now); [discriminate | congruence].
      * intros [u' [E [_ [_ S]]]]. injection E as <-. now rewrite S.
    + rewrite (login_wrong_password bcrypt jwt w dto now u F V). cbn [fst].
      split; [discriminate|].
      intros [u' [E [_ [V' _]]]]. injection E as <-. congruence.
  - apply find_email_None_absent in F.
    rewrite (login_unknown_email bcrypt jwt w dto now F). cbn [fst].
    split; [discriminate|]. intros [u' [E _]]. discriminate.
Qed.

(** X9.  The three ways [register] rejects, each with its cause.
    [register] is its lookup followed by [register_resume] on what the
    lookup answered.  When that part is rejected, either the lookup had
    found a row and the exception is
    [BadRequestException "User already exists"], with nothing changed;
    or the lookup had found none and a value is too long for its
    column, error P2000, with nothing changed; or the lookup had found
    none but a row with the e-mail is there by the time of the insert,
    error P2002, with the rows unchanged and a value of the counter
    used up.  The last needs another request between the lookup and
    the insert: a [register] that runs alone is rejected only in the
    first two ways. *)
Theorem register_rejection_causes (bcrypt : Bcrypt) :
  (forall dto drawn now w,
      register dto drawn now w
      = register_resume (find (hasEmail (RegisterDto.email dto)) (rows (users w)))
          dto drawn now w)
  /\ (forall existingUser dto drawn now w e,
         fst (register_resume existingUser dto drawn now w) = Rejected e ->
         (e = BadRequestException "User already exists"
          /\ existingUser <> None
          /\ snd (register_resume existingUser dto drawn now w) = w)
         \/ (e = PrismaClientKnownRequestError "P2000"
             /\ existingUser = None
             /\ registerFits dto drawn = false
             /\ snd (register_resume existingUser dto drawn now w) = w)
         \/ (e = PrismaClientKnownRequestError "P2002"
             /\ existingUser = None
             /\ In (RegisterDto.email dto) (emails (users w))
             /\ snd (register_resume existingUser dto drawn now w)
                = {| users := {| rows := rows (users w);
                                 autoIncrement := autoIncrement (users w) + 1 |};
                     config := config w |}))
  /\ (forall dto drawn now w e,
         fst (register dto drawn now w) = Rejected e ->
         (e = BadRequestException "User already exists"
          /\ In (RegisterDto.email dto) (emails (users w))
          /\ snd (register dto drawn now w) = w)
         \/ (e = PrismaClientKnownRequestError "P2000"
             /\ ~ In (RegisterDto.email dto) (emails (users w))
             /\ registerFits dto drawn = false
             /\ snd (register dto drawn now w) = w)).
Proof.
  split; [|split].
  - intros dto drawn now w. apply register_is_lookup_then_resume.
  - intros existingUser dto drawn now w e Hrejected.
    destruct (register_resume_paths bcrypt existingUser dto drawn now w)
      as [[N E] | [[N [F E]] | [[N [F [I E]]] | [N [F [I [u [E _]]]]]]]];
      rewrite E in Hrejected |- *; cbn [fst snd] in *;
      try discriminate; injection Hrejected as <-.
    + left. auto.
    + right. left. auto.
    + right. right. auto.
  - intros dto drawn now w e Hrejected.
    destruct (register_cases bcrypt w dto drawn now) as [H | [[H F] | [H F]]].
    + rewrite (register_existing bcrypt w dto drawn now H) in *.
      cbn [fst snd] in *. injection Hrejected as <-. left. auto.
    + rewrite (register_overlong bcrypt w dto drawn now H F) in *.
      cbn [fst snd] in *. injection Hrejected as <-. right. auto.
    + rewrite (register_fresh bcrypt w dto drawn now H F) in Hrejected.
      discriminate.
Qed.

Lemma register_rejection_causes_witness :
  fst (checkExistingUser (RegisterDto.email Sample.jane) Sample.start)
  = Resolved None
  /\ @register_resume Sample.bcrypt None Sample.jane "pepper" 200 Sample.withJane
     = (Rejected (PrismaClientKnownRequestError "P2002"),
        {| users := {| rows := [Sample.janeRow]; autoIncrement := 3 |};
           config := Sample.env |})
  /\ In (RegisterDto.email Sample.jane) (emails (users Sample.withJane))
  /\ fst (@register Sample.bcrypt Sample.vera "salt" 100 Sample.start)
     = Rejected (PrismaClientKnownRequestError "P2000")
  /\ @registerFits Sample.bcrypt Sample.vera "salt" = false.
Proof.
  split; [reflexivity|].
  split; [reflexivity|].
  destruct (proj1 (proj2 (register_rejection_causes Sample.bcrypt))
              None Sample.jane "pepper" 200 Sample.withJane _ eq_refl)
    as [[E _] | [[E _] | [_ [_ [I _]]]]]; try discriminate E.
  split; [exact I|].
  split; [reflexivity|].
  destruct (proj2 (proj2 (register_rejection_causes Sample.bcrypt))
              Sample.vera "salt" 100 Sample.start _ eq_refl)
    as [[E _] | [_ [_ [F _]]]]; [discriminate E | exact F].
Defined.

(** X10.  The two ways [authenticate] rejects are told apart by the
    exception: a token that fails verification gives
    [UnauthorizedException], status 401; a verified token whose [sub]
    no row has gives the plain [Error "Unauthorized"] of [validate],
    which the exception filter answers with status 500. *)
Theorem authenticate_rejection_causes
  (jwt : JsonWebToken) (strategy : JwtStrategy) (token : string) (now : Z)
  (w : World) (e : Exception)
  (Hrejected : fst (authenticate strategy token now w) = Rejected e) :
  (jwt_verify token (secretOrKey strategy) now = None
   /\ e = UnauthorizedException "Unauthorized"
   /\ httpStatus e = 401)
  \/ (exists payload,
         jwt_verify token (secretOrKey strategy) now = Some payload
         /\ fst (findUnique_Id (Payload.sub payload) w) = Resolved None
         /\ e = Error "Unauthorized"
         /\ httpStatus e = 500).
Proof.
  unfold authenticate in Hrejected.
  destruct (jwt_verify token (secretOrKey strategy) now) as [p|] eqn:V.
  - right. exists p. rewrite validate_spec in Hrejected. cbn [fst] in Hrejected.
    unfold findUnique_Id. cbn [fst].
    destruct (find (hasId (Payload.sub p)) (rows (users w)));
      [discriminate|].
    injection Hrejected as <-. auto.
  - left. cbn in Hrejected. injection Hrejected as <-. auto.
Qed.

Lemma authenticate_rejection_causes_witness :
  fst (@authenticate Sample.jwt Sample.strategy Sample.janeToken 500 Sample.start)
  = Rejected (Error "Unauthorized")
  /\ fst (@authenticate Sample.jwt Sample.strategy "forged" 500 Sample.withJane)
     = Rejected (UnauthorizedException "Unauthorized")
  /\ (exists payload,
         @jwt_verify Sample.jwt Sample.janeToken (secretOrKey Sample.strategy) 500
         = Some payload
         /\ fst (findUnique_Id (Payload.sub payload) Sample.start) = Resolved None).
Proof.
  split; [reflexivity|].
  split; [reflexivity|].
  destruct (authenticate_rejection_causes Sample.jwt Sample.strategy
              Sample.janeToken 500 Sample.start _ eq_refl)
    as [[V _] | [payload [V [F _]]]].
  - vm_compute in V. discriminate V.
  - exists payload. split; [exact V | exact F].
Defined.

(** ** More on the roles guard *)

(** X11.  The guard looks at the role of the identity only, and a longer
    list of roles admits at least as much: an identity admitted under
    the list [roles] is admitted, with any other identity of the same
    role, under every list that contains the members of [roles]. *)
Theorem canActivate_monotone
  (roles roles' : list string) (handler handler' : Handler)
  (identity identity' : RequestUser.t)
  (Hsub : forall r, In r roles -> In r roles')
  (Hrole : RequestUser.role identity' = RequestUser.role identity)
  (Hadmitted : canActivate {| getHandler := Roles roles handler;
                              request_user := identity |} = true) :
  canActivate {| getHandler := Roles roles' handler';
                 request_user := identity' |} = true.
Proof.
  unfold canActivate in *. cbn [getHandler request_user] in *.
  rewrite reflector_get_Roles in *. rewrite Hrole.
  apply includes_In. apply Hsub. now apply includes_In.
Qed.

Lemma canActivate_monotone_witness :
  (forall r, In r ["admin"] -> In r ["user"; "admin"])
  /\ canActivate {| getHandler := Roles ["admin"] Sample.bare;
                    request_user := Sample.asRole admin |} = true
  /\ canActivate {| getHandler := Roles ["user"; "admin"] Sample.bare;
                    request_user := Sample.asRole admin |} = true.
Proof.
  assert (forall r, In r ["admin"] -> In r ["user"; "admin"]) as Hsub
    by (intros r [<-|[]]; simpl; auto).
  split; [exact Hsub|].
  split; [reflexivity|].
  apply (canActivate_monotone ["admin"] ["user"; "admin"] Sample.bare Sample.bare
           (Sample.asRole admin) (Sample.asRole admin) Hsub eq_refl eq_refl).
Defined.

(** ** The authentication guide *)

Lemma guide_hasEmail_true (e : string) (u : AuthGuide.User.t) :
  AuthGuide.hasEmail e u = true <-> AuthGuide.User.email u = e.
Proof. unfold AuthGuide.hasEmail. apply String.eqb_eq. Qed.

Lemma guide_hasId_true (i : Z) (u : AuthGuide.User.t) :
  AuthGuide.hasId i u = true <-> AuthGuide.User.id u = i.
Proof. unfold AuthGuide.hasId. apply Z.eqb_eq. Qed.

Lemma guide_find_email_of_row (table : list AuthGuide.User.t) (u : AuthGuide.User.t) :
  distinct String.eqb (AuthGuide.emails table) = true ->
  In u table ->
  AuthGuide.findUnique_email table (AuthGuide.User.email u) = Some u.
Proof.
  unfold AuthGuide.findUnique_email, AuthGuide.emails.
  induction table as [|a table IH]; simpl; intros D H; [contradiction|].
  apply andb_true_iff in D. destruct D as [Na D].
  destruct H as [->|H].
  - unfold AuthGuide.hasEmail. now rewrite String.eqb_refl.
  - destruct (AuthGuide.hasEmail (AuthGuide.User.email u) a) eqn:E.
    + apply guide_hasEmail_true in E. apply negb_true_iff in Na.
      assert (In (AuthGuide.User.email a) (map AuthGuide.User.email table)) as I
        by (rewrite E; now apply in_map).
      apply existsb_string_In in I. congruence.
    + now apply IH.
Qed.

Lemma guide_find_id_of_row (table : list AuthGuide.User.t) (u : AuthGuide.User.t) :
  distinct Z.eqb (AuthGuide.ids table) = true ->
  In u table ->
  AuthGuide.findUnique_id table (AuthGuide.User.id u) = Some u.
Proof.
  unfold AuthGuide.findUnique_id, AuthGuide.ids.
  induction table as [|a table IH]; simpl; intros D H; [contradiction|].
  apply andb_true_iff in D. destruct D as [Na D].
  destruct H as [->|H].
  - unfold AuthGuide.hasId. now rewrite Z.eqb_refl.
  - destruct (AuthGuide.hasId (AuthGuide.User.id u) a) eqn:E.
    + apply guide_hasId_true in E. apply negb_true_iff in Na.
      assert (In (AuthGuide.User.id a) (map AuthGuide.User.id table)) as I
        by (rewrite E; now apply in_map).
      apply existsb_Z_In in I. congruence.
    + now apply IH.
Qed.

Lemma guide_find_email_absent (table : list AuthGuide.User.t) (e : string) :
  ~ In e (AuthGuide.emails table) -> AuthGuide.findUnique_email table e = None.
Proof.
  unfold AuthGuide.findUnique_email, AuthGuide.emails.
  induction table as [|u table IH]; simpl; intros H; [reflexivity|].
  destruct (AuthGuide.hasEmail e u) eqn:E.
  - apply guide_hasEmail_true in E. tauto.
  - apply IH. tauto.
Qed.

Lemma guide_tableOk_split (table : list AuthGuide.User.t) :
  AuthGuide.tableOk table = true ->
  distinct String.eqb (AuthGuide.emails table) = true
  /\ distinct Z.eqb (AuthGuide.ids table) = true.
Proof. unfold AuthGuide.tableOk. intros H. now apply andb_true_iff in H. Qed.

(** What [validateUser] returns is a row of the table, with the e-mail
    asked for and a hash that accepts the password. *)
Lemma guide_validateUser_some (bcrypt : Bcrypt) (table : list AuthGuide.User.t)
  (email password : string) (u : AuthGuide.User.t) :
  AuthGuide.validateUser table email password = Some u ->
  In u table
  /\ AuthGuide.User.email u = email
  /\ AuthGuide.validatePassword password (AuthGuide.User.password u) = true.
Proof.
  unfold AuthGuide.validateUser, AuthGuide.findUnique_email.
  destruct (find (AuthGuide.hasEmail email) table) as [v|] eqn:F; [|discriminate].
  destruct (AuthGuide.validatePassword password (AuthGuide.User.password v)) eqn:V;
    [|discriminate].
  intros E. injection E as <-. apply find_some in F. destruct F as [I H].
  apply guide_hasEmail_true in H. auto.
Qed.

(** X12.  [validateUser] of the guide returns only a row of the table
    that has the e-mail asked for and whose stored hash accepts the
    password; and on a table that respects the unique index, for a row
    of the table it returns that row when its hash accepts the password
    and [null] when it does not. *)
Theorem guide_validateUser_exact (bcrypt : Bcrypt) (table : list AuthGuide.User.t) :
  (forall email password u,
      AuthGuide.validateUser table email password = Some u ->
      In u table
      /\ AuthGuide.User.email u = email
      /\ AuthGuide.validatePassword password (AuthGuide.User.password u) = true)
  /\ (AuthGuide.tableOk table = true ->
      forall u password,
        In u table ->
        AuthGuide.validateUser table (AuthGuide.User.email u) password
        = if AuthGuide.validatePassword password (AuthGuide.User.password u)
          then Some u else None).
Proof.
  split.
  - intros email password u. apply guide_validateUser_some.
  - intros Hok u password I. apply guide_tableOk_split in Hok.
    unfold AuthGuide.validateUser.
    now rewrite (guide_find_email_of_row table u (proj1 Hok) I).
Qed.

Lemma guide_validateUser_exact_witness :
  AuthGuide.tableOk AuthGuideSample.table = true
  /\ In AuthGuideSample.bob AuthGuideSample.table
  /\ @AuthGuide.validateUser Sample.bcrypt AuthGuideSample.table
       "bob@x.com" "hunter22" = Some AuthGuideSample.bob
  /\ @AuthGuide.validateUser Sample.bcrypt AuthGuideSample.table
       "bob@x.com" "hunter23" = None.
Proof.
  assert (In AuthGuideSample.bob AuthGuideSample.table) as I
    by (simpl; auto).
  split; [reflexivity|].
  split; [exact I|].
  split.
  - apply (proj2 (guide_validateUser_exact Sample.bcrypt AuthGuideSample.table)
             eq_refl AuthGuideSample.bob "hunter22" I).
  - apply (proj2 (guide_validateUser_exact Sample.bcrypt AuthGuideSample.table)
             eq_refl AuthGuideSample.bob "hunter23" I).
Defined.

(** X13.  The login of the guide answers an unknown e-mail and a
    refused password with the same plain [Error "Invalid credentials"],
    and every rejection of it is a plain [Error]: the exception filter
    answers it with status 500, not with a client error. *)
Theorem guide_login_rejections (bcrypt : Bcrypt)
  (sign : AuthGuide.TokenPayload.t -> string + string)
  (table : list AuthGuide.User.t) (body : AuthGuide.LoginBody.t) :
  (~ In (AuthGuide.LoginBody.email body) (AuthGuide.emails table) ->
   AuthGuide.login sign table body = Rejected (Error "Invalid credentials"))
  /\ (forall u,
         AuthGuide.findUnique_email table (AuthGuide.LoginBody.email body) = Some u ->
         AuthGuide.validatePassword (AuthGuide.LoginBody.password body)
           (AuthGuide.User.password u) = false ->
         AuthGuide.login sign table body = Rejected (Error "Invalid credentials"))
  /\ (forall e,
         AuthGuide.login sign table body = Rejected e ->
         (exists msg, e = Error msg) /\ httpStatus e = 500).
Proof.
  unfold AuthGuide.login, AuthGuide.validateUser, AuthGuide.generateToken.
  split; [|split].
  - intros H. now rewrite (guide_find_email_absent table _ H).
  - intros u F V. now rewrite F, V.
  - intros e.
    destruct (AuthGuide.findUnique_email table (AuthGuide.LoginBody.email body))
      as [u|].
    + destruct (AuthGuide.validatePassword _ _).
      * destruct (sign _) as [msg|token]; intros E; [|discriminate].
        injection E as <-. split; [now exists msg | reflexivity].
      * intros E. injection E as <-. split; [now eexists | reflexivity].
    + intros E. injection E as <-. split; [now eexists | reflexivity].
Qed.

Lemma guide_login_rejections_witness :
  AuthGuide.findUnique_email AuthGuideSample.table "bob@x.com"
  = Some AuthGuideSample.bob
  /\ @AuthGuide.validatePassword Sample.bcrypt "hunter23"
       (AuthGuide.User.password AuthGuideSample.bob) = false
  /\ @AuthGuide.login Sample.bcrypt AuthGuideSample.sign AuthGuideSample.table
       AuthGuideSample.bobWrong = Rejected (Error "Invalid credentials").
Proof.
  split; [reflexivity|].
  split; [reflexivity|].
  apply (proj1 (proj2 (guide_login_rejections Sample.bcrypt AuthGuideSample.sign
                         AuthGuideSample.table AuthGuideSample.bobWrong))
           AuthGuideSample.bob eq_refl eq_refl).
Defined.

(** X14.  On a table of the guide that respects the unique indexes, when
    the login resolves to a token there is a row with the e-mail of the
    body whose hash accepts the password, the token is the one signed
    for [{userId, email}] of that row, and [validate] on that payload
    resolves to the [id], e-mail and role of the row; the guard of the
    admin route then admits the request exactly when the role of the
    row is ["admin"]. *)
Theorem guide_login_validate_guard (bcrypt : Bcrypt)
  (sign : AuthGuide.TokenPayload.t -> string + string)
  (table : list AuthGuide.User.t) (body : AuthGuide.LoginBody.t) (token : string)
  (Hok : AuthGuide.tableOk table = true)
  (Hlogin : AuthGuide.login sign table body = Resolved {| access_token := token |}) :
  exists u : AuthGuide.User.t,
    In u table
    /\ AuthGuide.User.email u = AuthGuide.LoginBody.email body
    /\ AuthGuide.validatePassword (AuthGuide.LoginBody.password body)
         (AuthGuide.User.password u) = true
    /\ sign {| AuthGuide.TokenPayload.userId := AuthGuide.User.id u;
               AuthGuide.TokenPayload.email := AuthGuide.User.email u |}
       = inr token
    /\ AuthGuide.validate table
         {| AuthGuide.TokenPayload.userId := AuthGuide.User.id u;
            AuthGuide.TokenPayload.email := AuthGuide.User.email u |}
       = Resolved {| AuthGuide.RequestUser.userId := AuthGuide.User.id u;
                     AuthGuide.RequestUser.email := AuthGuide.User.email u;
                     AuthGuide.RequestUser.role := AuthGuide.User.role u |}
    /\ (forall bare,
           AuthGuide.canActivate (AuthGuide.adminRoute bare)
             {| AuthGuide.RequestUser.userId := AuthGuide.User.id u;
                AuthGuide.RequestUser.email := AuthGuide.User.email u;
                AuthGuide.RequestUser.role := AuthGuide.User.role u |}
           = String.eqb (AuthGuide.User.role u) "admin").
Proof.
  unfold AuthGuide.login in Hlogin.
  destruct (AuthGuide.validateUser table (AuthGuide.LoginBody.email body)
              (AuthGuide.LoginBody.password body)) as [u|] eqn:Vu;
    [|discriminate].
  destruct (guide_validateUser_some bcrypt table _ _ u Vu) as [I [E V]].
  unfold AuthGuide.generateToken in Hlogin.
  destruct (sign _) as [msg|signed] eqn:S; [discriminate|].
  injection Hlogin as ->.
  apply guide_tableOk_split in Hok.
  exists u. split; [exact I|]. split; [exact E|]. split; [exact V|].
  split; [exact S|]. split.
  - unfold AuthGuide.validate. cbn [AuthGuide.TokenPayload.userId].
    now rewrite (guide_find_id_of_row table u (proj2 Hok) I).
  - intros bare. unfold AuthGuide.canActivate, AuthGuide.adminRoute.
    rewrite reflector_get_Roles. cbn [AuthGuide.RequestUser.role].
    unfold includes, AuthGuide.Role.Admin. cbn [existsb]. apply orb_false_r.
Qed.

Lemma guide_login_validate_guard_witness :
  AuthGuide.tableOk AuthGuideSample.table = true
  /\ @AuthGuide.login Sample.bcrypt AuthGuideSample.sign AuthGuideSample.table
       AuthGuideSample.bobLogin = Resolved {| access_token := "k.ii.bob@x.com" |}
  /\ exists u : AuthGuide.User.t,
       AuthGuide.User.email u = "bob@x.com"
       /\ AuthGuide.canActivate (AuthGuide.adminRoute Sample.bare)
            {| AuthGuide.RequestUser.userId := AuthGuide.User.id u;
               AuthGuide.RequestUser.email := AuthGuide.User.email u;
               AuthGuide.RequestUser.role := AuthGuide.User.role u |}
          = String.eqb (AuthGuide.User.role u) "admin".
Proof.
  split; [reflexivity|].
  split; [reflexivity|].
  destruct (guide_login_validate_guard Sample.bcrypt AuthGuideSample.sign
              AuthGuideSample.table AuthGuideSample.bobLogin "k.ii.bob@x.com"
              eq_refl eq_refl) as [u [_ [E [_ [_ [_ G]]]]]].
  exists u. split; [exact E | exact (G Sample.bare)].
Defined.

(** ** The user service of the DTO guide *)

Lemma ug_hasId_true (i : Z) (u : UserGuide.User.t) :
  UserGuide.hasId i u = true <-> UserGuide.User.id u = i.
Proof. unfold UserGuide.hasId. apply Z.eqb_eq. Qed.

Lemma ug_hasEmail_true (e : string) (u : UserGuide.User.t) :
  UserGuide.hasEmail e u = true <-> UserGuide.User.email u = e.
Proof. unfold UserGuide.hasEmail. apply String.eqb_eq. Qed.

Lemma ug_find_absent (i : Z) (rs : list UserGuide.User.t) :
  ~ In i (map UserGuide.User.id rs) -> find (UserGuide.hasId i) rs = None.
Proof.
  induction rs as [|u rs IH]; simpl; intros H; [reflexivity|].
  destruct (UserGuide.hasId i u) eqn:E.
  - apply ug_hasId_true in E. tauto.
  - apply IH. tauto.
Qed.

Lemma ug_find_present (i : Z) (rs : list UserGuide.User.t) :
  In i (map UserGuide.User.id rs) ->
  exists u, find (UserGuide.hasId i) rs = Some u.
Proof.
  induction rs as [|u rs IH]; simpl; intros H; [contradiction|].
  destruct (UserGuide.hasId i u) eqn:E; [now exists u|].
  destruct H as [H|H]; [apply ug_hasId_true in H; congruence | now apply IH].
Qed.

Lemma ug_existsb_email_absent (e : string) (rs : list UserGuide.User.t) :
  ~ In e (map UserGuide.User.email rs) ->
  existsb (UserGuide.hasEmail e) rs = false.
Proof.
  induction rs as [|u rs IH]; simpl; intros H; [reflexivity|].
  destruct (UserGuide.hasEmail e u) eqn:E.
  - apply ug_hasEmail_true in E. tauto.
  - apply IH. tauto.
Qed.

(** The lookup after a delete: nothing under the deleted [id], the same
    as before under any other. *)
Lemma ug_find_after_delete (i j : Z) (rs : list UserGuide.User.t) :
  find (UserGuide.hasId j) (filter (fun v => negb (UserGuide.hasId i v)) rs)
  = if Z.eqb j i then None else find (UserGuide.hasId j) rs.
Proof.
  induction rs as [|a rs IH]; simpl.
  - now destruct (Z.eqb j i).
  - destruct (UserGuide.hasId i a) eqn:Ei; cbn [negb].
    + rewrite IH. destruct (Z.eqb j i) eqn:Eji; [reflexivity|].
      destruct (UserGuide.hasId j a) eqn:Ej; [|reflexivity].
      apply ug_hasId_true in Ei, Ej. apply Z.eqb_neq in Eji. congruence.
    + cbn [find]. destruct (UserGuide.hasId j a) eqn:Ej.
      * destruct (Z.eqb j i) eqn:Eji; [|reflexivity].
        apply ug_hasId_true in Ej. apply Z.eqb_eq in Eji.
        assert (UserGuide.hasId i a = true) as Ei'
          by (apply ug_hasId_true; congruence).
        congruence.
      * exact IH.
Qed.

Lemma existsb_map_filter {A K : Type} (eqb : K -> K -> bool) (key : A -> K)
  (p : A -> bool) (x : K) (l : list A) :
  existsb (eqb x) (map key l) = false ->
  existsb (eqb x) (map key (filter p l)) = false.
Proof.
  induction l as [|a l IH]; simpl; intros H; [reflexivity|].
  apply orb_false_iff in H. destruct H as [H1 H2].
  destruct (p a); simpl; [rewrite H1|]; now apply IH.
Qed.

Lemma distinct_map_filter {A K : Type} (eqb : K -> K -> bool) (key : A -> K)
  (p : A -> bool) (l : list A) :
  distinct eqb (map key l) = true ->
  distinct eqb (map key (filter p l)) = true.
Proof.
  induction l as [|a l IH]; simpl; intros H; [reflexivity|].
  apply andb_true_iff in H. destruct H as [H1 H2].
  destruct (p a); simpl; [|now apply IH].
  apply andb_true_iff. split; [|now apply IH].
  apply negb_true_iff in H1. apply negb_true_iff.
  now apply existsb_map_filter.
Qed.

Lemma ug_filter_absent (i : Z) (rs : list UserGuide.User.t) :
  ~ In i (map UserGuide.User.id rs) ->
  filter (fun v => negb (UserGuide.hasId i v)) rs = rs.
Proof.
  induction rs as [|a rs IH]; simpl; intros H; [reflexivity|].
  destruct (UserGuide.hasId i a) eqn:E.
  - apply ug_hasId_true in E. tauto.
  - cbn [negb]. f_equal. apply IH. tauto.
Qed.

Lemma ug_delete_one (i : Z) (rs : list UserGuide.User.t) :
  distinct Z.eqb (map UserGuide.User.id rs) = true ->
  In i (map UserGuide.User.id rs) ->
  S (List.length (filter (fun v => negb (UserGuide.hasId i v)) rs))
  = List.length rs.
Proof.
  induction rs as [|a rs IH]; simpl; intros D H; [contradiction|].
  apply andb_true_iff in D. destruct D as [Na D]. apply negb_true_iff in Na.
  destruct (UserGuide.hasId i a) eqn:E; cbn [negb].
  - apply ug_hasId_true in E. subst i.
    rewrite ug_filter_absent; [reflexivity|].
    intros I. apply existsb_Z_In in I. congruence.
  - cbn [List.length]. f_equal. apply IH; [exact D|].
    destruct H as [H|H]; [apply ug_hasId_true in H; congruence | exact H].
Qed.

Lemma ug_dbOk_parts (db : UserGuide.Db) :
  UserGuide.dbOk db = true ->
  distinct String.eqb (map UserGuide.User.email (UserGuide.user db)) = true
  /\ distinct Z.eqb (map UserGuide.User.id (UserGuide.user db)) = true
  /\ forall i, In i (map UserGuide.User.id (UserGuide.user db)) ->
               i < UserGuide.autoIncrement db.
Proof.
  unfold UserGuide.dbOk. intros H.
  apply andb_true_iff in H. destruct H as [H L].
  apply andb_true_iff in H. destruct H as [E I].
  split; [exact E | split; [exact I|]].
  intros i Hi. rewrite forallb_forall in L. apply L in Hi. now apply Z.ltb_lt.
Qed.

Lemma ug_dbOk_build (rs : list UserGuide.User.t) (c : Z) :
  distinct String.eqb (map UserGuide.User.email rs) = true ->
  distinct Z.eqb (map UserGuide.User.id rs) = true ->
  (forall i, In i (map UserGuide.User.id rs) -> i < c) ->
  UserGuide.dbOk {| UserGuide.user := rs; UserGuide.autoIncrement := c |} = true.
Proof.
  intros E I L. unfold UserGuide.dbOk. cbn.
  rewrite E, I. cbn. apply forallb_forall. intros i Hi. apply Z.ltb_lt. auto.
Qed.

(** X15.  On a table that respects the constraints, [create] with an
    e-mail no row has resolves to a new row with the next [id] and the
    name, e-mail and password of the DTO, the password as it was given;
    [findOne] on that [id] then resolves to the same row, [findAll]
    lists it after the rows there were, the constraints still hold, and
    a second [create] with the same DTO is rejected with the
    unique-constraint error P2002, changing nothing. *)
Theorem user_create_then_findOne
  (Number_toString : Z -> string) (db : UserGuide.Db)
  (dto : UserGuide.CreateUserDto.t) (now now' : Z)
  (Hok : UserGuide.dbOk db = true)
  (Hfresh : ~ In (UserGuide.CreateUserDto.email dto)
                 (map UserGuide.User.email (UserGuide.user db))) :
  exists (u : UserGuide.User.t) (db' : UserGuide.Db),
    UserGuide.create dto now db = (UserGuide.Resolved u, db')
    /\ UserGuide.User.id u = UserGuide.autoIncrement db
    /\ UserGuide.User.name u = UserGuide.CreateUserDto.name dto
    /\ UserGuide.User.email u = UserGuide.CreateUserDto.email dto
    /\ UserGuide.User.password u = UserGuide.CreateUserDto.password dto
    /\ UserGuide.findOne Number_toString (UserGuide.User.id u) db'
       = (UserGuide.Resolved u, db')
    /\ fst (UserGuide.findAll db')
       = UserGuide.Resolved (UserGuide.user db ++ [u])%list
    /\ UserGuide.dbOk db' = true
    /\ UserGuide.create dto now' db'
       = (UserGuide.Rejected (UserGuide.PrismaClientKnownRequestError "P2002"), db').
Proof.
  destruct (ug_dbOk_parts db Hok) as [He [Hi Hlt]].
  unfold UserGuide.create, UserGuide.prisma_create.
  rewrite (ug_existsb_email_absent _ _ Hfresh).
  eexists. eexists. split; [reflexivity|].
  cbn [UserGuide.User.id UserGuide.User.name UserGuide.User.email
       UserGuide.User.password UserGuide.user UserGuide.autoIncrement].
  split; [reflexivity|]. split; [reflexivity|]. split; [reflexivity|].
  split; [reflexivity|]. split; [|split; [reflexivity|split]].
  - unfold UserGuide.findOne, UserGuide.prisma_findUnique. cbn [UserGuide.user].
    rewrite find_snoc, ug_find_absent.
    + unfold UserGuide.hasId. cbn [UserGuide.User.id]. now rewrite Z.eqb_refl.
    + intros I. apply Hlt in I. lia.
  - apply ug_dbOk_build.
    + rewrite map_app. now apply distinct_snoc_string.
    + rewrite map_app. apply distinct_snoc_Z; [exact Hi|].
      cbn [UserGuide.User.id]. intros I. apply Hlt in I. lia.
    + rewrite map_app. intros i I. apply in_app_or in I.
      destruct I as [I|[<-|[]]]; [apply Hlt in I; lia | cbn; lia].
  - rewrite existsb_app. cbn [existsb]. unfold UserGuide.hasEmail at 2.
    cbn [UserGuide.User.email]. rewrite String.eqb_refl.
    now rewrite orb_true_r.
Qed.

Lemma user_create_then_findOne_witness :
  UserGuide.dbOk UserGuide.empty = true
  /\ ~ In (UserGuide.CreateUserDto.email UserGuide.ann)
          (map UserGuide.User.email (UserGuide.user UserGuide.empty))
  /\ exists u : UserGuide.User.t,
       fst (UserGuide.create UserGuide.ann 10 UserGuide.empty)
       = UserGuide.Resolved u
       /\ UserGuide.User.id u = 1
       /\ UserGuide.User.password u = "Passw0rd".
Proof.
  assert (~ In (UserGuide.CreateUserDto.email UserGuide.ann)
               (map UserGuide.User.email (UserGuide.user UserGuide.empty)))
    as Hfresh by (simpl; tauto).
  split; [reflexivity|].
  split; [exact Hfresh|].
  destruct (user_create_then_findOne UserGuide.decimal UserGuide.empty
              UserGuide.ann 10 11 eq_refl Hfresh)
    as [u [db' [C [I [_ [_ [P _]]]]]]].
  exists u. split; [now rewrite C | split; [exact I | exact P]].
Defined.

(** X16.  On a table that respects the constraints, [remove] of an [id]
    some row has resolves with the message naming the [id] and takes
    exactly that row away: afterwards [findOne] on the [id] is rejected
    with [NotFoundException], status 404, [findOne] on every other [id]
    answers as before, the table is one row shorter and still respects
    the constraints, and a second [remove] of the [id] is rejected with
    P2025. *)
Theorem user_remove_then_findOne
  (Number_toString : Z -> string) (db : UserGuide.Db) (id : Z)
  (Hok : UserGuide.dbOk db = true)
  (Hpresent : In id (map UserGuide.User.id (UserGuide.user db))) :
  exists db' : UserGuide.Db,
    UserGuide.remove Number_toString id db
    = (UserGuide.Resolved
         {| UserGuide.message :=
              "User with ID " ++ Number_toString id ++ " deleted successfully." |},
       db')
    /\ UserGuide.findOne Number_toString id db'
       = (UserGuide.Rejected
            (UserGuide.NotFoundException
               ("User with ID " ++ Number_toString id ++ " not found.")), db')
    /\ UserGuide.httpStatus
         (UserGuide.NotFoundException
            ("User with ID " ++ Number_toString id ++ " not found.")) = 404
    /\ (forall j, j <> id ->
          fst (UserGuide.findOne Number_toString j db')
          = fst (UserGuide.findOne Number_toString j db))
    /\ S (List.length (UserGuide.user db')) = List.length (UserGuide.user db)
    /\ UserGuide.dbOk db' = true
    /\ UserGuide.remove Number_toString id db'
       = (UserGuide.Rejected (UserGuide.PrismaClientKnownRequestError "P2025"), db').
Proof.
  destruct (ug_dbOk_parts db Hok) as [He [Hi Hlt]].
  destruct (ug_find_present id _ Hpresent) as [u F].
  unfold UserGuide.remove, UserGuide.prisma_delete. rewrite F.
  eexists. split; [reflexivity|].
  unfold UserGuide.findOne, UserGuide.prisma_findUnique.
  cbn [UserGuide.user UserGuide.autoIncrement].
  rewrite !ug_find_after_delete, Z.eqb_refl.
  split; [reflexivity|]. split; [reflexivity|].
  split; [|split; [|split; [|reflexivity]]].
  - intros j Hj. rewrite ug_find_after_delete.
    apply Z.eqb_neq in Hj. rewrite Hj.
    now destruct (find (UserGuide.hasId j) (UserGuide.user db)).
  - now apply ug_delete_one.
  - apply ug_dbOk_build.
    + now apply distinct_map_filter.
    + now apply distinct_map_filter.
    + intros i I. apply Hlt. apply in_map_iff in I.
      destruct I as [v [<- Iv]]. apply filter_In in Iv. apply in_map. tauto.
Qed.

Lemma user_remove_then_findOne_witness :
  UserGuide.dbOk UserGuide.two = true
  /\ In 1 (map UserGuide.User.id (UserGuide.user UserGuide.two))
  /\ fst (UserGuide.remove UserGuide.decimal 1 UserGuide.two)
     = UserGuide.Resolved
         {| UserGuide.message := "User with ID 1 deleted successfully." |}
  /\ fst (UserGuide.findOne UserGuide.decimal 1
            (snd (UserGuide.remove UserGuide.decimal 1 UserGuide.two)))
     = UserGuide.Rejected (UserGuide.NotFoundException "User with ID 1 not found.")
  /\ exists db' : UserGuide.Db,
       snd (UserGuide.remove UserGuide.decimal 1 UserGuide.two) = db'
       /\ S (List.length (UserGuide.user db')) = 2%nat.
Proof.
  assert (In 1 (map UserGuide.User.id (UserGuide.user UserGuide.two))) as Hin
    by (simpl; auto).
  split; [reflexivity|].
  split; [exact Hin|].
  split; [reflexivity|].
  split; [reflexivity|].
  destruct (user_remove_then_findOne UserGuide.decimal UserGuide.two 1
              eq_refl Hin) as [db' [R [_ [_ [_ [L _]]]]]].
  exists db'. split; [now rewrite R | exact L].
Defined.

(** X17.  On an [id] in the range of a 32-bit integer that no row has,
    [findOne] and [remove] both fail and change nothing, but not alike:
    [findOne] rejects with [NotFoundException], status 404, while
    [remove] lets the P2025 error of the Prisma client through, status
    500. *)
Theorem user_missing_id
  (Number_toString : Z -> string) (db : UserGuide.Db) (id : Z)
  (Hint32 : - 2147483648 <= id <= 2147483647)
  (Habsent : ~ In id (map UserGuide.User.id (UserGuide.user db))) :
  UserGuide.findOne Number_toString id db
  = (UserGuide.Rejected
       (UserGuide.NotFoundException
          ("User with ID " ++ Number_toString id ++ " not found.")), db)
  /\ UserGuide.remove Number_toString id db
     = (UserGuide.Rejected (UserGuide.PrismaClientKnownRequestError "P2025"), db)
  /\ UserGuide.httpStatus
       (UserGuide.NotFoundException
          ("User with ID " ++ Number_toString id ++ " not found.")) = 404
  /\ UserGuide.httpStatus (UserGuide.PrismaClientKnownRequestError "P2025") = 500.
Proof.
  unfold UserGuide.findOne, UserGuide.remove, UserGuide.prisma_findUnique,
    UserGuide.prisma_delete.
  rewrite (ug_find_absent _ _ Habsent). repeat split.
Qed.

Lemma user_missing_id_witness :
  - 2147483648 <= 7 <= 2147483647
  /\ ~ In 7 (map UserGuide.User.id (UserGuide.user UserGuide.two))
  /\ UserGuide.findOne UserGuide.decimal 7 UserGuide.two
     = (UserGuide.Rejected (UserGuide.NotFoundException "User with ID 7 not found."),
        UserGuide.two)
  /\ UserGuide.remove UserGuide.decimal 7 UserGuide.two
     = (UserGuide.Rejected (UserGuide.PrismaClientKnownRequestError "P2025"),
        UserGuide.two).
Proof.
  assert (- 2147483648 <= 7 <= 2147483647) as Hint32 by lia.
  assert (~ In 7 (map UserGuide.User.id (UserGuide.user UserGuide.two)))
    as Habsent by (simpl; intros [H|[H|[]]]; discriminate H).
  split; [exact Hint32|].
  split; [exact Habsent|].
  destruct (user_missing_id UserGuide.decimal UserGuide.two 7 Hint32 Habsent)
    as [F [R _]].
  split; [exact F | exact R].
Defined.

(** ** The password rule of the DTO guide *)

Example password_rule_examples :
  UpdatePasswordDto.valid "Passw0rd" = true
  /\ UpdatePasswordDto.valid "password1" = false
  /\ UpdatePasswordDto.valid "Pw0" = false
  /\ UpdatePasswordDto.valid (String "A" (String "a" (String "1"
       (String "010" "bbbbbbbb")))) = false.
Proof. repeat split. Qed.

Lemma anyChar_restOfLine (p : ascii -> bool) (s : string) :
  UpdatePasswordDto.anyChar p (UpdatePasswordDto.restOfLine s) = true ->
  UpdatePasswordDto.anyChar p s = true.
Proof.
  induction s as [|c s IH]; simpl; [auto|].
  destruct (UpdatePasswordDto.isLineTerminator c); simpl; [discriminate|].
  intros H. apply orb_true_iff in H. apply orb_true_iff.
  destruct H as [H|H]; auto.
Qed.

Lemma restOfLine_whole (s : string) :
  UpdatePasswordDto.anyChar UpdatePasswordDto.isLineTerminator s = false ->
  UpdatePasswordDto.restOfLine s = s.
Proof.
  induction s as [|c s IH]; simpl; [auto|].
  intros H. apply orb_false_iff in H. destruct H as [H1 H2].
  rewrite H1. f_equal. now apply IH.
Qed.

Lemma matchesPattern_unfold (s : string) :
  UpdatePasswordDto.matchesPattern s
  = UpdatePasswordDto.matchesHere s
    || match s with
       | EmptyString => false
       | String _ s' => UpdatePasswordDto.matchesPattern s'
       end.
Proof. now destruct s. Qed.

Lemma matchesPattern_classes (s : string) :
  UpdatePasswordDto.matchesPattern s = true ->
  UpdatePasswordDto.anyChar UpdatePasswordDto.isDigit s = true
  /\ UpdatePasswordDto.anyChar UpdatePasswordDto.isLower s = true
  /\ UpdatePasswordDto.anyChar UpdatePasswordDto.isUpper s = true.
Proof.
  assert (forall t, UpdatePasswordDto.matchesHere t = true ->
                    UpdatePasswordDto.anyChar UpdatePasswordDto.isDigit t = true
                    /\ UpdatePasswordDto.anyChar UpdatePasswordDto.isLower t = true
                    /\ UpdatePasswordDto.anyChar UpdatePasswordDto.isUpper t = true)
    as Here.
  { intros t H. unfold UpdatePasswordDto.matchesHere in H.
    apply andb_true_iff in H. destruct H as [H _].
    apply andb_true_iff in H. destruct H as [H U].
    apply andb_true_iff in H. destruct H as [D L].
    repeat split; now apply anyChar_restOfLine. }
  induction s as [|c s IH]; rewrite matchesPattern_unfold; intros H;
    apply orb_true_iff in H; destruct H as [H|H];
    try (now apply Here); try discriminate.
  destruct (IH H) as [D [L U]]. cbn [UpdatePasswordDto.anyChar].
  rewrite D, L, U, !orb_true_r. auto.
Qed.

(** X18.  For a new password of ASCII characters: when the decorators
    of [UpdatePasswordDto] accept it, it has between 8 and 20
    characters and holds a digit, a lower-case and an upper-case
    letter; and a password of that length with the three kinds of
    characters is accepted when it has no line terminator in it. *)
Theorem update_password_rule (newPassword : string)
  (Hascii : isAscii newPassword = true) :
  (UpdatePasswordDto.valid newPassword = true ->
   (8 <= String.length newPassword <= 20)%nat
   /\ UpdatePasswordDto.anyChar UpdatePasswordDto.isDigit newPassword = true
   /\ UpdatePasswordDto.anyChar UpdatePasswordDto.isLower newPassword = true
   /\ UpdatePasswordDto.anyChar UpdatePasswordDto.isUpper newPassword = true)
  /\ ((8 <= String.length newPassword <= 20)%nat ->
      UpdatePasswordDto.anyChar UpdatePasswordDto.isDigit newPassword = true ->
      UpdatePasswordDto.anyChar UpdatePasswordDto.isLower newPassword = true ->
      UpdatePasswordDto.anyChar UpdatePasswordDto.isUpper newPassword = true ->
      UpdatePasswordDto.anyChar UpdatePasswordDto.isLineTerminator newPassword = false ->
      UpdatePasswordDto.valid newPassword = true).
Proof.
  unfold UpdatePasswordDto.valid, Length. split.
  - intros H. apply andb_true_iff in H. destruct H as [B M].
    apply andb_true_iff in B. destruct B as [B1 B2].
    apply Nat.leb_le in B1, B2.
    split; [split; assumption | now apply matchesPattern_classes].
  - intros [B1 B2] D L U T.
    apply andb_true_iff. split.
    + apply andb_true_iff. split; now apply Nat.leb_le.
    + rewrite matchesPattern_unfold. apply orb_true_iff. left.
      unfold UpdatePasswordDto.matchesHere.
      rewrite (restOfLine_whole _ T), D, L, U. cbn [andb].
      now apply Nat.leb_le.
Qed.

Lemma update_password_rule_witness :
  isAscii "Passw0rd" = true
  /\ UpdatePasswordDto.valid "Passw0rd" = true
  /\ (8 <= String.length "Passw0rd" <= 20)%nat
  /\ isAscii "S3cretpw" = true
  /\ UpdatePasswordDto.anyChar UpdatePasswordDto.isLineTerminator "S3cretpw" = false
  /\ UpdatePasswordDto.valid "S3cretpw" = true.
Proof.
  split; [reflexivity|].
  split; [reflexivity|].
  split; [exact (proj1 (proj1 (update_password_rule "Passw0rd" eq_refl) eq_refl))|].
  split; [reflexivity|].
  split; [reflexivity|].
  apply (proj2 (update_password_rule "S3cretpw" eq_refl)).
  - cbn. lia.
  - reflexivity.
  - reflexivity.
  - reflexivity.
  - reflexivity.
Defined.
